(** * Perk resource controller: validation schemas and request handlers

    Shallow embedding of [src/controllers/perkController.js].

    - JSON request data is an inductive [value]; object properties are an
      association list kept in property enumeration order.
    - JavaScript numbers are IEEE 754 binary64, here primitive floats.
    - A string is a sequence of character codes and its length their
      number, as [value.length] counts code units.
    - The two Joi schemas of the controller are data ([perkSchema],
      [perkUpdateSchema]) interpreted by [Joi.validate], which follows the
      control flow of Joi's validator for the schema features the
      controller uses (default preferences: convert, abortEarly, unknown
      keys forbidden).
    - A handler is a small program over the persistence calls of the
      [Perk] model: it either finishes with an outcome or awaits one call
      and continues with the settled promise.
    - The [Perk] model itself ([models/Perk.js]) is outside the controller;
      the collection in [Module Store] is modelled from the specification. *)

From Stdlib Require Import ZArith String Ascii List Bool Lia.
From Stdlib Require Import Floats.PrimFloat.
From Stdlib Require Import Numbers.Cyclic.Int63.Uint63.
From Stdlib Require Floats.FloatOps Floats.FloatAxioms Floats.SpecFloat.
From stdpp Require Import gmap strings list sorting pretty.

Set Warnings "-register-all".
Open Scope string_scope.
Open Scope list_scope.

(** ** JSON values *)

Inductive value : Type :=
| VNull
| VBool (b : bool)
| VNum (n : float)
| VStr (s : string)
| VArr (items : list value)
| VObj (props : list (string * value)).

(** A plain object: own enumerable properties, in [Object.keys] order. *)
Definition obj : Type := list (string * value).

Module Obj.

(** [o[k]], [None] standing for [undefined]. *)
Fixpoint get (k : string) (o : obj) : option value :=
  match o with
  | [] => None
  | (k', v) :: o' => if String.eqb k k' then Some v else get k o'
  end.

(** [o[k] = v]: an existing property keeps its place, a new one goes last. *)
Fixpoint set (k : string) (v : value) (o : obj) : obj :=
  match o with
  | [] => [(k, v)]
  | (k', v') :: o' =>
      if String.eqb k k' then (k, v) :: o' else (k', v') :: set k v o'
  end.

(** [delete o[k]]. *)
Fixpoint remove (k : string) (o : obj) : obj :=
  match o with
  | [] => []
  | (k', v') :: o' =>
      if String.eqb k k' then remove k o' else (k', v') :: remove k o'
  end.

(** [Object.keys(o)]. *)
Definition keys (o : obj) : list string := map fst o.

End Obj.

(** ** The subset of Joi used by the controller *)

Module Joi.

Inductive type := StringT | NumberT.

(** [.min(limit)] and [.max(limit)]; on a string they bound its length, on
    a number its value, on an object its number of keys. *)
Inductive rule := Min (limit : Z) | Max (limit : Z).

Inductive presence := Optional | Required.

Record schema := {
  base : type;
  rules : list rule;          (* in the order they were added *)
  valids : list String.string; (* values of [.allow(...)] and [.valid(...)] *)
  only : bool;                (* set by [.valid(...)] *)
  flag_presence : presence;
  flag_default : option value
}.

Definition string : schema :=
  {| base := StringT; rules := []; valids := []; only := false;
     flag_presence := Optional; flag_default := None |}.

Definition number : schema :=
  {| base := NumberT; rules := []; valids := []; only := false;
     flag_presence := Optional; flag_default := None |}.

Definition add_rule (r : rule) (s : schema) : schema :=
  {| base := base s; rules := rules s ++ [r]; valids := valids s;
     only := only s; flag_presence := flag_presence s;
     flag_default := flag_default s |}.

Definition min (limit : Z) : schema -> schema := add_rule (Min limit).
Definition max (limit : Z) : schema -> schema := add_rule (Max limit).

Definition required (s : schema) : schema :=
  {| base := base s; rules := rules s; valids := valids s;
     only := only s; flag_presence := Required;
     flag_default := flag_default s |}.

Definition allow (vs : list String.string) (s : schema) : schema :=
  {| base := base s; rules := rules s; valids := valids s ++ vs;
     only := only s; flag_presence := flag_presence s;
     flag_default := flag_default s |}.

Definition valid (vs : list String.string) (s : schema) : schema :=
  {| base := base s; rules := rules s; valids := valids s ++ vs;
     only := true; flag_presence := flag_presence s;
     flag_default := flag_default s |}.

Definition default (v : value) (s : schema) : schema :=
  {| base := base s; rules := rules s; valids := valids s;
     only := only s; flag_presence := flag_presence s;
     flag_default := Some v |}.

(** [Joi.object({...})], possibly followed by [.min(n)]. *)
Record object_schema := {
  children : list (String.string * schema);   (* in declaration order *)
  key_rules : list rule
}.

Definition object (ks : list (String.string * schema)) : object_schema :=
  {| children := ks; key_rules := [] |}.

Definition min_keys (limit : Z) (s : object_schema) : object_schema :=
  {| children := children s; key_rules := key_rules s ++ [Min limit] |}.

(** Validation errors, by Joi's error code, with the label of the value
    they are about and the context the message template uses. *)
Inductive error :=
| any_required (label : String.string)
| any_only (label : String.string) (vs : list String.string)
| string_base (label : String.string)
| string_empty (label : String.string)
| string_min (label : String.string) (limit : Z)
| string_max (label : String.string) (limit : Z)
| number_base (label : String.string)
| number_infinity (label : String.string)
| number_unsafe (label : String.string)
| number_min (label : String.string) (limit : Z)
| number_max (label : String.string) (limit : Z)
| object_base (label : String.string)
| object_unknown (label : String.string)
| object_min (label : String.string) (limit : Z)
| object_max (label : String.string) (limit : Z).


(** [error.message]: Joi's default message templates. *)
Definition dquote : String.string := String (ascii_of_nat 34) EmptyString.

Definition quoted (label : String.string) : String.string :=
  dquote +:+ label +:+ dquote.

Fixpoint join (sep : String.string) (l : list String.string) : String.string :=
  match l with
  | [] => EmptyString
  | [x] => x
  | x :: l' => x +:+ sep +:+ join sep l'
  end.

Definition plural (limit : Z) : String.string :=
  if (limit =? 1)%Z then EmptyString else "s".

Definition message (e : error) : String.string :=
  match e with
  | any_required l => quoted l +:+ " is required"
  | any_only l vs =>
      quoted l +:+ " must be "
        +:+ (if (length vs =? 1)%nat then EmptyString else "one of ")
        +:+ "[" +:+ join ", " vs +:+ "]"
  | string_base l => quoted l +:+ " must be a string"
  | string_empty l => quoted l +:+ " is not allowed to be empty"
  | string_min l n =>
      quoted l +:+ " length must be at least " +:+ pretty n
        +:+ " characters long"
  | string_max l n =>
      quoted l +:+ " length must be less than or equal to " +:+ pretty n
        +:+ " characters long"
  | number_base l => quoted l +:+ " must be a number"
  | number_infinity l => quoted l +:+ " cannot be infinity"
  | number_unsafe l => quoted l +:+ " must be a safe number"
  | number_min l n =>
      quoted l +:+ " must be greater than or equal to " +:+ pretty n
  | number_max l n =>
      quoted l +:+ " must be less than or equal to " +:+ pretty n
  | object_base l => quoted l +:+ " must be of type object"
  | object_unknown l => quoted l +:+ " is not allowed"
  | object_min l n =>
      quoted l +:+ " must have at least " +:+ pretty n +:+ " key"
        +:+ plural n
  | object_max l n =>
      quoted l +:+ " must have less than or equal to " +:+ pretty n
        +:+ " key" +:+ plural n
  end.

(** What the number type makes of a string under [convert]: the string
    does not look like a number and stays as it is, it looks like one but
    does not survive the round trip through [parseFloat], or it is
    replaced by the parsed number. *)
Inductive coerced := NotNumeric | UnsafeNumber | Parsed (n : float).

(** The two string conversions of the library the schemas can reach: the
    number type's (regular expression and [parseFloat]) and the object
    type's (JSON parsing of a string that starts with a brace). Both are
    internals of the validation library and stay abstract. *)
Class Convert := {
  number_of_string : String.string -> coerced;
  object_of_string : String.string -> option obj
}.

(** A schema limit as a JavaScript number. *)
Definition float_of_Z (z : Z) : float :=
  if (z <? 0)%Z then PrimFloat.opp (PrimFloat.of_uint63 (Uint63.of_Z (- z)))
  else PrimFloat.of_uint63 (Uint63.of_Z z).

(** [Number.MAX_SAFE_INTEGER]. *)
Definition max_safe_integer : float := 9007199254740991%float.

(** [schema.$_getRule('min')]: the limit of the [min] rule, if any. *)
Fixpoint get_rule_min (rs : list rule) : option Z :=
  match rs with
  | [] => None
  | Min l :: _ => Some l
  | Max _ :: rs' => get_rule_min rs'
  end.

(** Match against the allowed values: only strings are listed, and a
    listed string matches itself alone. *)
Definition matches_valids (s : schema) (v : value) : bool :=
  match v with
  | VStr x => existsb (String.eqb x) (valids s)
  | _ => false
  end.

(** The base check of the type. *)
Definition validate_base (label : String.string) (s : schema) (v : value)
  : error + value :=
  match base s, v with
  | StringT, VStr x =>
      if String.eqb x EmptyString then
        match get_rule_min (rules s) with
        | Some 0%Z => inr v
        | _ => inl (string_empty label)
        end
      else inr v
  | StringT, _ => inl (string_base label)
  | NumberT, VNum n =>
      if PrimFloat.is_infinity n then inl (number_infinity label)
      else if PrimFloat.is_nan n then inl (number_base label)
      else if (max_safe_integer <? n)%float
              || (n <? PrimFloat.opp max_safe_integer)%float
      then inl (number_unsafe label)
      else inr (VNum (if (n =? 0)%float then 0%float else n))
  | NumberT, _ => inl (number_base label)
  end.

(** One rule on a value that passed the base check. *)
Definition validate_rule (label : String.string) (r : rule) (v : value)
  : option error :=
  match v, r with
  | VStr x, Min l =>
      if (l <=? Z.of_nat (String.length x))%Z then None
      else Some (string_min label l)
  | VStr x, Max l =>
      if (Z.of_nat (String.length x) <=? l)%Z then None
      else Some (string_max label l)
  | VNum n, Min l =>
      if (float_of_Z l <=? n)%float then None else Some (number_min label l)
  | VNum n, Max l =>
      if (n <=? float_of_Z l)%float then None else Some (number_max label l)
  | _, _ => None
  end.

(** The rules in order, stopping at the first error. *)
Fixpoint validate_rules (label : String.string) (rs : list rule) (v : value)
  : option error :=
  match rs with
  | [] => None
  | r :: rs' =>
      match validate_rule label r v with
      | Some e => Some e
      | None => validate_rules label rs' v
      end
  end.

Section Validator.
Context {conv : Convert}.

(** Type coercion of a defined value. *)
Definition coerce (label : String.string) (s : schema) (v : value)
  : error + value :=
  match base s, v with
  | NumberT, VStr x =>
      match number_of_string x with
      | NotNumeric => inr v
      | UnsafeNumber => inl (number_unsafe label)
      | Parsed n => inr (VNum n)
      end
  | _, _ => inr v
  end.

(** Validation of the value under one key: coercion, presence and
    default, allowed values, base type, rules. [None] is [undefined]
    on both sides. *)
Definition validate_value (label : String.string) (s : schema)
    (item : option value) : error + option value :=
  match item with
  | None =>
      match flag_presence s with
      | Required => inl (any_required label)
      | Optional => inr (flag_default s)
      end
  | Some v =>
      match coerce label s v with
      | inl e => inl e
      | inr v1 =>
          if matches_valids s v1 then inr (Some v1)
          else if only s then inl (any_only label (valids s))
          else
            match validate_base label s v1 with
            | inl e => inl e
            | inr v2 =>
                match validate_rules label (rules s) v2 with
                | Some e => inl e
                | None => inr (Some v2)
                end
            end
      end
  end.

(** The object after the value under [k] was validated to [r]: a
    defined result is written back, an undefined result of a defined
    value deletes the key. *)
Definition stored (k : String.string) (r : option value) (o : obj) : obj :=
  match r with
  | Some v => Obj.set k v o
  | None =>
      match Obj.get k o with
      | Some _ => Obj.remove k o
      | None => o
      end
  end.

(** The declared keys in order, on a shallow clone of the object. *)
Fixpoint validate_children (ks : list (String.string * schema)) (o : obj)
  : error + obj :=
  match ks with
  | [] => inr o
  | (k, s) :: ks' =>
      match validate_value k s (Obj.get k o) with
      | inl e => inl e
      | inr r => validate_children ks' (stored k r o)
      end
  end.

(** The first own key that no declared key processed. *)
Definition first_unknown (ks : list (String.string * schema)) (o : obj)
  : option String.string :=
  List.find (fun k => negb (existsb (String.eqb k) (map fst ks)))
            (Obj.keys o).

Definition validate_key_rule (r : rule) (o : obj) : option error :=
  match r with
  | Min l =>
      if (l <=? Z.of_nat (length (Obj.keys o)))%Z then None
      else Some (object_min "value" l)
  | Max l =>
      if (Z.of_nat (length (Obj.keys o)) <=? l)%Z then None
      else Some (object_max "value" l)
  end.

Fixpoint validate_key_rules (rs : list rule) (o : obj) : option error :=
  match rs with
  | [] => None
  | r :: rs' =>
      match validate_key_rule r o with
      | Some e => Some e
      | None => validate_key_rules rs' o
      end
  end.

(** An object against an object schema: children, unknown keys, rules. *)
Definition validate_object (S : object_schema) (o : obj) : error + obj :=
  match validate_children (children S) o with
  | inl e => inl e
  | inr o' =>
      match first_unknown (children S) o with
      | Some k => inl (object_unknown k)
      | None =>
          match validate_key_rules (key_rules S) o' with
          | Some e => inl e
          | None => inr o'
          end
      end
  end.

(** [schema.validate(input)]: [inl error] or [inr value]. An object
    schema is optional, so [undefined] passes as [undefined]; a string
    that parses to an object is replaced by it; anything else that is
    not a plain object fails the base check. *)
Definition validate (S : object_schema) (input : option value)
  : error + option obj :=
  match input with
  | None => inr None
  | Some (VObj o) => sum_map id Some (validate_object S o)
  | Some (VStr x) =>
      match object_of_string x with
      | Some o => sum_map id Some (validate_object S o)
      | None => inl (object_base "value")
      end
  | Some _ => inl (object_base "value")
  end.

End Validator.

End Joi.

Notation "s '|>' f" := (f s) (at level 45, left associativity, only parsing).

(** ** The schemas of the controller *)

(** Schema for creating a new perk. *)
Definition perkSchema : Joi.object_schema :=
  Joi.object [
    ("title", Joi.string |> Joi.min 2 |> Joi.required);
    ("description", Joi.string |> Joi.allow [EmptyString]);
    ("category",
      Joi.string |> Joi.valid ["food"; "tech"; "travel"; "fitness"; "other"]
                 |> Joi.default (VStr "other"));
    ("discountPercent",
      Joi.number |> Joi.min 0 |> Joi.max 100 |> Joi.default (VNum 0%float));
    ("merchant", Joi.string |> Joi.allow [EmptyString])
  ].

(** Schema for updating a perk: every key optional, at least one present. *)
Definition perkUpdateSchema : Joi.object_schema :=
  Joi.object [
    ("title", Joi.string |> Joi.min 2);
    ("description", Joi.string |> Joi.allow [EmptyString]);
    ("category",
      Joi.string |> Joi.valid ["food"; "tech"; "travel"; "fitness"; "other"]);
    ("discountPercent", Joi.number |> Joi.min 0 |> Joi.max 100);
    ("merchant", Joi.string |> Joi.allow [EmptyString])
  ] |> Joi.min_keys 1.

(** ** The persisted entity and the calls on its model *)

(** Modelled from the spec: the [Perk] entity of the data model (the model
    file [models/Perk.js] is not part of the controller). The identifier
    and the creation time are assigned by the persistence layer; both are
    opaque there and natural numbers here. *)
Record perk := {
  _id : nat;
  title : string;
  description : option string;
  category : string;
  discountPercent : float;
  merchant : option string;
  createdAt : nat
}.

(** A thrown error, as far as the handlers look at it: [err.code]. *)
Record exn := { code : option Z; reason : string }.

(** [err.code === n]. *)
Definition code_is (n : Z) (err : exn) : bool :=
  match code err with
  | Some c => (c =? n)%Z
  | None => false
  end.

Module Perk.

(** The filter of [Perk.find]: none, or [{ title: title }]. *)
Inductive filter := all | by_title (t : string).

(** [.sort({ createdAt: direction })]. *)
Inductive order := by_createdAt (direction : Z).

(** The calls the handlers make, indexed by what their promise
    fulfils with. *)
Inductive call : Type -> Type :=
| find (f : filter) (sort : order) : call (list perk)
| findById (id : nat) : call (option perk)
| create (fields : obj) : call perk
| findByIdAndUpdate (id : nat) (set : option obj) (new : bool)
    : call (option perk)
| findByIdAndDelete (id : nat) : call (option perk).

End Perk.

(** ** Handlers *)

(** How an awaited promise settles. *)
Inductive settled (X : Type) : Type :=
| Fulfilled (x : X)
| Rejected (err : exn).
Arguments Fulfilled {X} x.
Arguments Rejected {X} err.

(** A handler body: done, or awaiting one persistence call. *)
Inductive handler (A : Type) : Type :=
| Ret (a : A)
| Await {X : Type} (c : Perk.call X) (k : settled X -> handler A).
Arguments Ret {A} a.
Arguments Await {A X} c k.

(** The JSON bodies the handlers send. *)
Inductive payload :=
| Message (message : string)       (* { message } *)
| OnePerk (doc : perk)             (* { perk: doc } *)
| Perks (perks : list perk)        (* the bare array *)
| Ok (ok : bool).                  (* { ok } *)

Record response := { status : nat; json : payload }.

(** What a handler does with the request: send a response, or hand the
    error to [next]. *)
Inductive outcome :=
| Sent (res : response)
| Next (err : exn).

(** The parts of the request the handlers read: [req.body] ([None] when
    undefined), [req.params.id] (a well-formed identifier) and
    [req.query.title] ([None] when the parameter is absent, a string
    otherwise). *)
Record request := {
  body : option value;
  params_id : nat;
  query_title : option string
}.

(** [{ ...value }]: spreading [undefined] gives the empty object. *)
Definition spread (value : option obj) : obj :=
  match value with
  | Some o => o
  | None => []
  end.

(** [res.status(code).json(body)] and [res.json(body)]. *)
Definition send (code : nat) (body : payload) : handler outcome :=
  Ret (Sent {| status := code; json := body |}).

(** [next(err)]. *)
Definition next (err : exn) : handler outcome := Ret (Next err).

Section Controller.
Context {conv : Joi.Convert}.

(** Filter perks by exact title match if the title query parameter is
    provided. The test [if (title)] is truthiness: the empty string takes
    the else branch. *)
Definition filterPerks (req : request) : handler outcome :=
  match query_title req with
  | Some title =>
      if negb (String.eqb title EmptyString) then
        Await (Perk.find (Perk.by_title title) (Perk.by_createdAt (-1)))
          (fun r =>
             match r with
             | Fulfilled perks => send 200 (Perks perks)
             | Rejected err => next err
             end)
      else send 400 (Message "Title query parameter is required")
  | None => send 400 (Message "Title query parameter is required")
  end.

(** Get a single perk by id. *)
Definition getPerk (req : request) : handler outcome :=
  Await (Perk.findById (params_id req))
    (fun r =>
       match r with
       | Fulfilled None => send 404 (Message "Perk not found")
       | Fulfilled (Some perk) => send 200 (OnePerk perk)
       | Rejected err => next err
       end).

(** Get all perks. *)
Definition getAllPerks (req : request) : handler outcome :=
  Await (Perk.find Perk.all (Perk.by_createdAt (-1)))
    (fun r =>
       match r with
       | Fulfilled perks => send 200 (Perks perks)
       | Rejected err => next err
       end).

(** Create a new perk. *)
Definition createPerk (req : request) : handler outcome :=
  match Joi.validate perkSchema (body req) with
  | inl error => send 400 (Message (Joi.message error))
  | inr value =>
      Await (Perk.create (spread value))
        (fun r =>
           match r with
           | Fulfilled doc => send 201 (OnePerk doc)
           | Rejected err =>
               if code_is 11000 err
               then send 409 (Message "Duplicate perk for this merchant")
               else next err
           end)
  end.

(** Update any field of a perk by id. *)
Definition updatePerk (req : request) : handler outcome :=
  match Joi.validate perkUpdateSchema (body req) with
  | inl error => send 400 (Message (Joi.message error))
  | inr value =>
      Await (Perk.findByIdAndUpdate (params_id req) value true)
        (fun r =>
           match r with
           | Fulfilled None => send 404 (Message "Perk not found")
           | Fulfilled (Some doc) => send 200 (OnePerk doc)
           | Rejected err => next err
           end)
  end.

(** Delete a perk by id. *)
Definition deletePerk (req : request) : handler outcome :=
  Await (Perk.findByIdAndDelete (params_id req))
    (fun r =>
       match r with
       | Fulfilled None => send 404 (Message "Perk not found")
       | Fulfilled (Some _) => send 200 (Ok true)
       | Rejected err => next err
       end).

End Controller.

(** A promise rejected with the store's duplicate-key code. *)
Definition duplicate_key {X : Type} (r : settled X) : bool :=
  match r with
  | Rejected err => code_is 11000 err
  | Fulfilled _ => false
  end.

(** ** Running a handler against a persistence layer *)

(** A persistence layer over a state [S]: every call settles and leaves a
    new state. *)
Definition persistence (S : Type) : Type :=
  forall X : Type, Perk.call X -> S -> settled X * S.

Fixpoint run {S A : Type} (P : persistence S) (h : handler A) (s : S) : A * S :=
  match h with
  | Ret a => (a, s)
  | Await c k => let (r, s') := P _ c s in run P (k r) s'
  end.

(** The persistence calls a handler makes on the way, oldest first. *)
Inductive made : Type :=
| Made (X : Type) (c : Perk.call X).
Arguments Made {X} c.

Fixpoint calls {S A : Type} (P : persistence S) (h : handler A) (s : S)
  : list made :=
  match h with
  | Ret _ => []
  | Await c k => let (r, s') := P _ c s in Made c :: calls P (k r) s'
  end.

(** ** The perk collection *)

Module Store.

(** Modelled from the spec: the store's uniqueness constraint on perks
    (the spec names it a merchant-scoped key and leaves the combination
    open; the index is declared in [models/Perk.js]). [collide p q] says
    that [p] and [q] cannot both be stored. *)
Class UniqueIndex := { collide : perk -> perk -> bool }.

(** Modelled from the spec: the five categories of the data model. *)
Definition categories : list string :=
  ["food"; "tech"; "travel"; "fitness"; "other"].

(** Modelled from the spec: the field-level constraints of the data
    model, which the persistence layer enforces: title of length at
    least 2, category one of the five, discount in [0, 100]. *)
Definition title_ok (t : string) : bool := (2 <=? String.length t)%nat.

(** Modelled from the spec: the category constraint. *)
Definition category_ok (c : string) : bool :=
  existsb (String.eqb c) categories.

(** Modelled from the spec: the discount constraint. *)
Definition discount_ok (n : float) : bool :=
  (0 <=? n)%float && (n <=? 100)%float.

(** Modelled from the spec: the three constraints on a whole perk. *)
Definition field_constraints (p : perk) : bool :=
  title_ok (title p) && category_ok (category p)
  && discount_ok (discountPercent p).

(** Modelled from the spec: the collection the external store owns. Perks
    are keyed by identifier; [next_id] and [clock] are the sources of
    fresh identifiers and creation times. *)
Record collection := {
  docs : gmap nat perk;
  next_id : nat;
  clock : nat
}.

(** Modelled from the spec: the collection before any perk is created. *)
Definition empty : collection :=
  {| docs := ∅; next_id := 0; clock := 0 |}.

(** Modelled from the spec: the invariant of the data model on stored
    perks. *)
Definition consistent (s : collection) : Prop :=
  forall i p, docs s !! i = Some p -> field_constraints p = true.

(** Modelled from the spec: descending creation time, the order of the
    list and filter handlers. *)
Definition newer_first (p q : perk) : Prop := createdAt q <= createdAt p.

(** Modelled from the spec: ascending creation time. *)
Definition older_first (p q : perk) : Prop := createdAt p <= createdAt q.

#[global] Instance newer_first_dec : RelDecision newer_first.
Proof. intros p q. unfold newer_first. apply _. Defined.
#[global] Instance older_first_dec : RelDecision older_first.
Proof. intros p q. unfold older_first. apply _. Defined.

#[global] Instance newer_first_total : Total newer_first.
Proof. intros p q. unfold newer_first. lia. Qed.

(** Modelled from the spec: exact-match title equality, or no filter. *)
Definition selected (f : Perk.filter) (p : perk) : bool :=
  match f with
  | Perk.all => true
  | Perk.by_title t => String.eqb (title p) t
  end.

(** Modelled from the spec: the sort by creation time; a negative
    direction is descending. *)
Definition sorted (o : Perk.order) (l : list perk) : list perk :=
  match o with
  | Perk.by_createdAt d =>
      if (d <? 0)%Z then merge_sort newer_first l
      else merge_sort older_first l
  end.

(** Modelled from the spec: find with a filter and a sort order. *)
Definition find (f : Perk.filter) (o : Perk.order) (s : collection)
  : list perk :=
  sorted o (List.filter (selected f) (map snd (map_to_list (docs s)))).

(** Modelled from the spec: an optional string field of a submitted
    object: absent, a string, or of another type. *)
Definition string_field (k : string) (o : obj) : option (option string) :=
  match Obj.get k o with
  | None => Some None
  | Some (VStr x) => Some (Some x)
  | Some _ => None
  end.

(** Modelled from the spec: an optional number field of a submitted
    object. *)
Definition number_field (k : string) (o : obj) : option (option float) :=
  match Obj.get k o with
  | None => Some None
  | Some (VNum n) => Some (Some n)
  | Some _ => None
  end.

(** Modelled from the spec: the fields of the entity a create or update
    call submits. *)
Record submitted := {
  s_title : option string;
  s_description : option string;
  s_category : option string;
  s_discountPercent : option float;
  s_merchant : option string
}.

(** Modelled from the spec: reading the submitted object; [None] when a
    field has the wrong type. Other keys are not part of the entity and
    are ignored. *)
Definition read (fields : obj) : option submitted :=
  match string_field "title" fields, string_field "description" fields,
        string_field "category" fields,
        number_field "discountPercent" fields,
        string_field "merchant" fields with
  | Some t, Some d, Some c, Some n, Some m =>
      Some {| s_title := t; s_description := d; s_category := c;
              s_discountPercent := n; s_merchant := m |}
  | _, _, _, _, _ => None
  end.

(** Modelled from the spec: the field-level constraints on what is
    submitted. *)
Definition submitted_ok (f : submitted) : bool :=
  from_option title_ok true (s_title f)
  && from_option category_ok true (s_category f)
  && from_option discount_ok true (s_discountPercent f).

(** Modelled from the spec: the perk a create call builds, with the
    creation defaults of the data model (category other, discount 0);
    [None] when the required title is missing. *)
Definition new_perk (f : submitted) (id now : nat) : option perk :=
  match s_title f with
  | Some t =>
      Some {| _id := id; title := t; description := s_description f;
              category := default "other" (s_category f);
              discountPercent := default 0%float (s_discountPercent f);
              merchant := s_merchant f; createdAt := now |}
  | None => None
  end.

(** Modelled from the spec: the partial merge of an update. Only the
    submitted fields overwrite stored values; identifier and creation
    time stay. *)
Definition merged (f : submitted) (p : perk) : perk :=
  {| _id := _id p;
     title := default (title p) (s_title f);
     description :=
       match s_description f with
       | Some d => Some d
       | None => description p
       end;
     category := default (category p) (s_category f);
     discountPercent := default (discountPercent p) (s_discountPercent f);
     merchant :=
       match s_merchant f with
       | Some m => Some m
       | None => merchant p
       end;
     createdAt := createdAt p |}.

(** Modelled from the spec: the error of a violated field constraint; it
    carries no code. *)
Definition invalid : exn :=
  {| code := None; reason := "ValidationError" |}.

(** Modelled from the spec: the error of a violated uniqueness
    constraint, with the store's duplicate-key code. *)
Definition duplicate : exn :=
  {| code := Some 11000%Z; reason := "E11000 duplicate key error" |}.

Section WithIndex.
Context {index : UniqueIndex}.

(** Modelled from the spec: whether [p] collides with a stored perk
    other than the one under [self]. *)
Definition collides (self : option nat) (p : perk) (s : collection)
  : bool :=
  existsb (fun e : nat * perk =>
             negb (bool_decide (Some (fst e) = self))
             && collide p (snd e))
          (map_to_list (docs s)).

(** Modelled from the spec: insert a new perk; rejected when a field
    constraint or the uniqueness constraint is violated. *)
Definition create (fields : obj) (s : collection)
  : settled perk * collection :=
  match read fields with
  | None => (Rejected invalid, s)
  | Some f =>
      if negb (submitted_ok f) then (Rejected invalid, s)
      else
        match new_perk f (next_id s) (clock s) with
        | None => (Rejected invalid, s)
        | Some p =>
            if collides None p s then (Rejected duplicate, s)
            else (Fulfilled p,
                  {| docs := <[next_id s := p]> (docs s);
                     next_id := S (next_id s);
                     clock := S (clock s) |})
        end
  end.

(** Modelled from the spec: update by identifier with a partial merge;
    fulfils with nothing when no perk has the identifier, with the
    post-update perk when [new] is set and the pre-update one
    otherwise. *)
Definition findByIdAndUpdate (id : nat) (set : option obj) (new : bool)
    (s : collection) : settled (option perk) * collection :=
  match docs s !! id with
  | None => (Fulfilled None, s)
  | Some old =>
      match read (spread set) with
      | None => (Rejected invalid, s)
      | Some f =>
          if negb (submitted_ok f) then (Rejected invalid, s)
          else
            let p := merged f old in
            if collides (Some id) p s then (Rejected duplicate, s)
            else (Fulfilled (Some (if new then p else old)),
                  {| docs := <[id := p]> (docs s);
                     next_id := next_id s;
                     clock := clock s |})
      end
  end.

(** Modelled from the spec: delete by identifier; fulfils with the
    deleted perk, or with nothing when no perk has the identifier. *)
Definition findByIdAndDelete (id : nat) (s : collection)
  : settled (option perk) * collection :=
  match docs s !! id with
  | None => (Fulfilled None, s)
  | Some old =>
      (Fulfilled (Some old),
       {| docs := delete id (docs s);
          next_id := next_id s;
          clock := clock s |})
  end.

(** Modelled from the spec: the persistence collaborator as a whole. *)
Definition exec : persistence collection :=
  fun X c =>
    match c in Perk.call X return collection -> settled X * collection with
    | Perk.find f o => fun s => (Fulfilled (find f o s), s)
    | Perk.findById id => fun s => (Fulfilled (docs s !! id), s)
    | Perk.create fields => create fields
    | Perk.findByIdAndUpdate id set new => findByIdAndUpdate id set new
    | Perk.findByIdAndDelete id => findByIdAndDelete id
    end.

End WithIndex.

(** Modelled from the spec: the uniqueness constraint as the spec words
    it, two perks with the same merchant value collide. *)
Definition merchant_index : UniqueIndex :=
  {| collide p q :=
       match merchant p, merchant q with
       | Some m, Some m' => String.eqb m m'
       | _, _ => false
       end |}.

End Store.

(** A conversion for running examples: it recognises unsigned decimal
    integers of at most fifteen digits and no string as an object. *)
Fixpoint digits_value (acc : Z) (x : string) : option Z :=
  match x with
  | EmptyString => Some acc
  | String c x' =>
      let n := nat_of_ascii c in
      if ((48 <=? n) && (n <=? 57))%nat
      then digits_value (10 * acc + Z.of_nat (n - 48)) x'
      else None
  end.

Definition integers_only : Joi.Convert :=
  {| Joi.number_of_string x :=
       match x with
       | EmptyString => Joi.NotNumeric
       | _ =>
           if (15 <? String.length x)%nat then Joi.NotNumeric
           else match digits_value 0 x with
                | Some z => Joi.Parsed (Joi.float_of_Z z)
                | None => Joi.NotNumeric
                end
       end;
     Joi.object_of_string _ := None |}.

(** ** Example requests and collections *)

Module Examples.

Definition post (b : value) : request :=
  {| body := Some b; params_id := 0; query_title := None |}.

Definition patch (id : nat) (b : value) : request :=
  {| body := Some b; params_id := id; query_title := None |}.

Definition by_id (id : nat) : request :=
  {| body := None; params_id := id; query_title := None |}.

Definition search (title : option string) : request :=
  {| body := None; params_id := 0; query_title := title |}.

(** [{ title: "Free Coffee", merchant: "Acme" }] *)
Definition free_coffee : obj :=
  [("title", VStr "Free Coffee"); ("merchant", VStr "Acme")].

(** [{ title: "Free Coffee", merchant: "Acme", category: "other",
      discountPercent: 0 }], what the create schema makes of it. *)
Definition free_coffee_validated : obj :=
  [("title", VStr "Free Coffee"); ("merchant", VStr "Acme");
   ("category", VStr "other"); ("discountPercent", VNum 0%float)].

Definition acme : perk :=
  {| _id := 0; title := "Free Coffee"; description := None;
     category := "other"; discountPercent := 0%float;
     merchant := Some "Acme"; createdAt := 0 |}.

(** The same offer at another merchant, so that the two perks differ in
    the merchant alone among the fields a uniqueness constraint can
    look at. *)
Definition bolt : perk :=
  {| _id := 1; title := "Free Coffee"; description := Some "One per visit";
     category := "food"; discountPercent := 25%float;
     merchant := Some "Bolt"; createdAt := 1 |}.

Definition one_perk : Store.collection :=
  {| Store.docs := {[ 0 := acme ]}; Store.next_id := 1; Store.clock := 1 |}.

Definition two_perks : Store.collection :=
  {| Store.docs := {[ 0 := acme; 1 := bolt ]};
     Store.next_id := 2; Store.clock := 2 |}.

End Examples.

(** ** The handlers together *)

(** The five handlers whose catch block is [next(err)] alone. *)
Definition plain_handlers {conv : Joi.Convert}
  : list (request -> handler outcome) :=
  [filterPerks; getPerk; getAllPerks; updatePerk; deletePerk].

(** The six exported handlers. *)
Definition handlers {conv : Joi.Convert}
  : list (request -> handler outcome) :=
  createPerk :: plain_handlers.

(** The object the schemas look at in a defined body: the body itself
    when it is a plain object, what the library parses it to when it is a
    string that starts with a brace and parses, and none otherwise (null,
    a boolean, a number, an array, any other string). *)
Definition object_of_body {conv : Joi.Convert} (b : value) : option obj :=
  match b with
  | VObj o => Some o
  | VStr x => Joi.object_of_string x
  | _ => None
  end.

(** The two handlers that validate a body, each with its schema. *)
Definition validating_handlers {conv : Joi.Convert}
  : list (Joi.object_schema * (request -> handler outcome)) :=
  [(perkSchema, createPerk); (perkUpdateSchema, updatePerk)].

(** The object a call hands to the model: the fields of a create, the
    [$set] of an update, nothing for the other calls. *)
Definition submitted_object (m : made) : obj :=
  match m with
  | Made c =>
      match c with
      | Perk.create fields => fields
      | Perk.findByIdAndUpdate _ set _ => spread set
      | _ => []
      end
  end.

(** The keys the two schemas declare. *)
Definition declared_keys : list string :=
  map fst (Joi.children perkSchema).

(** A persistence layer that cannot be reached: every call is rejected
    with an error that carries no code. *)
Definition connection_error : exn :=
  {| code := None; reason := "connection refused" |}.

Definition unreachable : persistence unit :=
  fun X _ s => (Rejected connection_error, s).

(** The conditions under which a key schema validates its own output to
    itself: a number schema lists no allowed values, and a default is
    itself valid. *)
Definition stable_children {conv : Joi.Convert} (S : Joi.object_schema)
  : Prop :=
  forall k s, In (k, s) (Joi.children S) ->
    (Joi.base s = Joi.NumberT -> Joi.valids s = [])
    /\ (forall d, Joi.flag_default s = Some d ->
          Joi.validate_value k s (Some d) = inr (Some d)).

(** The persistence layer rejects the call [m] in state [s] with [err],
    leaving state [s']. *)
Definition rejects {S : Type} (P : persistence S) (s : S) (m : made)
    (err : exn) (s' : S) : Prop :=
  match m with
  | Made c => P _ c s = (Rejected err, s')
  end.

(** ** More example requests *)

Module MoreExamples.

(** A body whose category and discount are both invalid. *)
Definition two_errors : obj :=
  [("title", VStr "Free Coffee"); ("category", VStr "drinks");
   ("discountPercent", VNum 500%float)].

(** A body that carries every field. *)
Definition full : obj :=
  [("title", VStr "Free Coffee"); ("description", VStr "One per visit");
   ("category", VStr "food"); ("discountPercent", VNum 25%float);
   ("merchant", VStr "Acme")].

(** [{ discountPercent: 50 }] *)
Definition half_price : obj := [("discountPercent", VNum 50%float)].

(** A request that carries no body: [req.body] is undefined. *)
Definition no_body : request :=
  {| body := None; params_id := 0; query_title := None |}.

(** [{ title: "Tea", merchant: "" }] *)
Definition retitle : obj := [("title", VStr "Tea"); ("merchant", VStr EmptyString)].

End MoreExamples.

(** ** Objects *)

Module ObjFacts.

Lemma eqb_refl (k : string) : String.eqb k k = true.
Proof. apply String.eqb_eq. reflexivity. Qed.

Lemma eqb_ne (k k' : string) : k <> k' -> String.eqb k k' = false.
Proof. intros H. apply String.eqb_neq. exact H. Qed.

Lemma get_set_eq k v o : Obj.get k (Obj.set k v o) = Some v.
Proof.
  induction o as [|[k' v'] o IH]; simpl.
  - rewrite eqb_refl. reflexivity.
  - destruct (String.eqb k k') eqn:E; simpl.
    + rewrite eqb_refl. reflexivity.
    + rewrite E. exact IH.
Qed.

Lemma get_set_ne k k' v o :
  k <> k' -> Obj.get k' (Obj.set k v o) = Obj.get k' o.
Proof.
  intros Hne. induction o as [|[k1 v1] o IH]; simpl.
  - rewrite (eqb_ne k' k) by congruence. reflexivity.
  - destruct (String.eqb_spec k k1) as [->|Hk]; simpl.
    + rewrite (eqb_ne k' k1) by congruence. reflexivity.
    + rewrite IH. reflexivity.
Qed.

Lemma get_remove_ne k k' o :
  k <> k' -> Obj.get k' (Obj.remove k o) = Obj.get k' o.
Proof.
  intros Hne. induction o as [|[k1 v1] o IH]; simpl; [reflexivity|].
  destruct (String.eqb_spec k k1) as [->|Hk]; simpl.
  - rewrite (eqb_ne k' k1) by congruence. exact IH.
  - rewrite IH. reflexivity.
Qed.

Lemma get_None_keys k o : Obj.get k o = None -> ~ In k (Obj.keys o).
Proof.
  induction o as [|[k1 v1] o IH]; simpl; [tauto|].
  destruct (String.eqb_spec k k1) as [->|Hk]; [discriminate|].
  intros H [E|E]; [congruence | exact (IH H E)].
Qed.

End ObjFacts.

(** ** The validator *)

Section ValidatorFacts.
Context {conv : Joi.Convert}.

(** A defined value never validates to [undefined]. *)
Lemma validate_value_defined l s v r :
  Joi.validate_value l s (Some v) = inr r -> exists v', r = Some v'.
Proof.
  unfold Joi.validate_value.
  destruct (Joi.coerce l s v) as [e|v1]; [discriminate|].
  destruct (Joi.matches_valids s v1); [intros [= <-]; eauto|].
  destruct (Joi.only s); [discriminate|].
  destruct (Joi.validate_base l s v1) as [e|v2]; [discriminate|].
  destruct (Joi.validate_rules l (Joi.rules s) v2); [discriminate|].
  intros [= <-]. eauto.
Qed.

Lemma stored_other k r o k' :
  k <> k' -> Obj.get k' (Joi.stored k r o) = Obj.get k' o.
Proof.
  intros Hne. destruct r as [v|]; simpl.
  - apply ObjFacts.get_set_ne, Hne.
  - destruct (Obj.get k o); [apply ObjFacts.get_remove_ne, Hne|reflexivity].
Qed.

Lemma stored_same k s o r :
  Joi.validate_value k s (Obj.get k o) = inr r ->
  Obj.get k (Joi.stored k r o) = r.
Proof.
  intros H. destruct r as [v|]; simpl.
  - apply ObjFacts.get_set_eq.
  - destruct (Obj.get k o) as [v|] eqn:E; [|exact E].
    apply validate_value_defined in H. destruct H as [v' H]. discriminate.
Qed.

(** Keys the schema does not declare are left as they were. *)
Lemma validate_children_frame ks : forall o o' k,
  Joi.validate_children ks o = inr o' ->
  ~ In k (map fst ks) ->
  Obj.get k o' = Obj.get k o.
Proof.
  induction ks as [|[k1 s1] ks IH]; intros o o' k H Hk.
  - simpl in H. congruence.
  - simpl in H.
    destruct (Joi.validate_value k1 s1 (Obj.get k1 o)) as [e|r] eqn:E;
      [discriminate|].
    simpl in Hk. rewrite (IH _ _ k H) by tauto.
    apply stored_other. tauto.
Qed.

(** After the children passed, each declared key holds what its schema
    validated the submitted value to. *)
Lemma validate_children_result ks : forall o o' k s,
  List.NoDup (map fst ks) ->
  In (k, s) ks ->
  Joi.validate_children ks o = inr o' ->
  Joi.validate_value k s (Obj.get k o) = inr (Obj.get k o').
Proof.
  induction ks as [|[k1 s1] ks IH]; intros o o' k s Hnd Hin H.
  - destruct Hin.
  - simpl in H.
    destruct (Joi.validate_value k1 s1 (Obj.get k1 o)) as [e|r] eqn:E;
      [discriminate|].
    inversion Hnd as [|? ? Hnotin Hnd']; subst.
    destruct Hin as [[= -> ->]|Hin].
    + rewrite (validate_children_frame _ _ _ _ H Hnotin).
      rewrite (stored_same _ _ _ _ E). exact E.
    + assert (k1 <> k) as Hne.
      { intros ->. apply Hnotin. apply (in_map fst) in Hin. exact Hin. }
      rewrite <- (stored_other k1 r o k Hne).
      apply IH; assumption.
Qed.

(** A key outside the declared ones makes the object fail. *)
Lemma first_unknown_found ks o k :
  In k (Obj.keys o) -> ~ In k (map fst ks) ->
  exists k', Joi.first_unknown ks o = Some k'.
Proof.
  intros Hin Hout. unfold Joi.first_unknown.
  destruct (List.find _ (Obj.keys o)) as [k'|] eqn:E; [eauto|].
  exfalso. pose proof (List.find_none _ _ E k Hin) as Hf. simpl in Hf.
  apply negb_false_iff, existsb_exists in Hf.
  destruct Hf as [x [Hx Heq]]. apply String.eqb_eq in Heq. subst x.
  exact (Hout Hx).
Qed.

Lemma validate_object_unknown S o k :
  In k (Obj.keys o) -> ~ In k (map fst (Joi.children S)) ->
  exists e, Joi.validate_object S o = inl e.
Proof.
  intros Hin Hout. unfold Joi.validate_object.
  destruct (Joi.validate_children (Joi.children S) o) as [e|o']; [eauto|].
  destruct (first_unknown_found _ _ _ Hin Hout) as [k' ->]. eauto.
Qed.

End ValidatorFacts.

(** ** What the key schemas let through *)

Section KeyFacts.
Context {conv : Joi.Convert}.

(** A string schema passes strings unchanged and nothing else; an absent
    optional value becomes the default. *)
Lemma string_typed l s item r :
  Joi.base s = Joi.StringT ->
  Joi.validate_value l s item = inr r ->
  match item with
  | Some v => (exists x, v = VStr x) /\ r = Some v
  | None => r = Joi.flag_default s
  end.
Proof.
  intros Hb H. destruct item as [v|].
  - unfold Joi.validate_value, Joi.coerce, Joi.validate_base in H.
    rewrite Hb in H.
    destruct v as [| | |x| |]; simpl in H;
      try (destruct (Joi.only s); discriminate).
    split; [eauto|].
    destruct (existsb _ _); [congruence|].
    destruct (Joi.only s); [discriminate|].
    destruct (String.eqb x EmptyString).
    + destruct (Joi.get_rule_min (Joi.rules s)) as [[| |]|];
        try discriminate.
      destruct (Joi.validate_rules _ _ _); [discriminate|congruence].
    + destruct (Joi.validate_rules _ _ _); [discriminate|congruence].
  - simpl in H. destruct (Joi.flag_presence s); congruence.
Qed.

(** [.min(n)] on a string schema without allowed values bounds the
    length. *)
Lemma string_min_length l s n x r :
  Joi.base s = Joi.StringT -> Joi.valids s = [] ->
  Joi.rules s = [Joi.Min n] ->
  Joi.validate_value l s (Some (VStr x)) = inr r ->
  (n <= Z.of_nat (String.length x))%Z.
Proof.
  intros Hb Hv Hr.
  unfold Joi.validate_value, Joi.coerce, Joi.validate_base.
  rewrite Hb, Hr. simpl. rewrite Hv. simpl.
  destruct (Joi.only s); [discriminate|].
  destruct (String.eqb_spec x EmptyString) as [->|Hx].
  - destruct n; discriminate.
  - simpl. destruct (Z.leb_spec n (Z.of_nat (String.length x)));
      [auto|discriminate].
Qed.

(** [.valid(...)] on a string schema passes the listed strings alone. *)
Lemma valid_only l s v r :
  Joi.base s = Joi.StringT -> Joi.only s = true ->
  Joi.validate_value l s (Some v) = inr r ->
  exists x, v = VStr x /\ In x (Joi.valids s).
Proof.
  intros Hb Ho.
  unfold Joi.validate_value, Joi.coerce. rewrite Hb, Ho.
  destruct v as [| | |x| |]; simpl; try discriminate.
  destruct (existsb (String.eqb x) (Joi.valids s)) eqn:E; [|discriminate].
  intros _. exists x. split; [reflexivity|].
  apply existsb_exists in E. destruct E as [y [Hy E]].
  apply String.eqb_eq in E. subst y. exact Hy.
Qed.

(** A number that passes the base check and the rules [min(0)],
    [max(100)] lies in the closed interval. *)
Lemma number_rules_bounded l s n r :
  Joi.base s = Joi.NumberT ->
  Joi.rules s = [Joi.Min 0; Joi.Max 100] ->
  match Joi.validate_base l s (VNum n) with
  | inl e => inl e
  | inr v2 =>
      match Joi.validate_rules l (Joi.rules s) v2 with
      | Some e => inl e
      | None => inr (Some v2)
      end
  end = inr r ->
  exists n', r = Some (VNum n') /\ Store.discount_ok n' = true.
Proof.
  intros Hb Hr. unfold Joi.validate_base. rewrite Hb, Hr.
  destruct (is_infinity n); [discriminate|].
  destruct (is_nan n); [discriminate|].
  destruct (_ || _); [discriminate|].
  set (n' := if (n =? 0)%float then 0%float else n).
  simpl. change (Joi.float_of_Z 0) with 0%float.
  change (Joi.float_of_Z 100) with 100%float.
  destruct (0 <=? n')%float eqn:E0; [|discriminate].
  destruct (n' <=? 100)%float eqn:E1; [|discriminate].
  intros [= <-]. exists n'. unfold Store.discount_ok.
  rewrite E0, E1. auto.
Qed.

(** The discount schema passes numbers in [0, 100] alone, whatever was
    submitted and however a submitted string was converted. *)
Lemma number_bounded l s v r :
  Joi.base s = Joi.NumberT -> Joi.valids s = [] -> Joi.only s = false ->
  Joi.rules s = [Joi.Min 0; Joi.Max 100] ->
  Joi.validate_value l s (Some v) = inr r ->
  exists n, r = Some (VNum n) /\ Store.discount_ok n = true.
Proof.
  intros Hb Hv Ho Hr.
  pose proof (fun n => number_rules_bounded l s n r Hb Hr) as Hnum.
  unfold Joi.validate_value, Joi.coerce. rewrite Hb.
  destruct v as [| |n|x| |]; simpl; rewrite ?Hv, ?Ho; simpl;
    try (unfold Joi.validate_base; rewrite Hb; discriminate).
  - apply Hnum.
  - destruct (Joi.number_of_string x) as [| |n]; simpl;
      rewrite ?Hv, ?Ho; simpl; try discriminate.
    + unfold Joi.validate_base; rewrite Hb; discriminate.
    + apply Hnum.
Qed.

Lemma absent_result l s r :
  Joi.validate_value l s None = inr r -> r = Joi.flag_default s.
Proof. simpl. destruct (Joi.flag_presence s); congruence. Qed.

End KeyFacts.

(** ** What the two object schemas let through *)

Ltac in_children := simpl; repeat (first [left; reflexivity | right]).

Section SchemaFacts.
Context {conv : Joi.Convert}.

Lemma title_ok_length t :
  (2 <= Z.of_nat (String.length t))%Z -> Store.title_ok t = true.
Proof. intros H. unfold Store.title_ok. apply Nat.leb_le. lia. Qed.

Lemma category_ok_listed c :
  In c ["food"; "tech"; "travel"; "fitness"; "other"] ->
  Store.category_ok c = true.
Proof.
  intros H. unfold Store.category_ok. apply existsb_exists.
  exists c. split; [exact H | apply String.eqb_eq; reflexivity].
Qed.

(** [Joi.string().min(2)], required or not. *)
Lemma title_schema l s item r :
  s = (Joi.string |> Joi.min 2 |> Joi.required)
  \/ s = (Joi.string |> Joi.min 2) ->
  Joi.validate_value l s item = inr r ->
  exists t : option string,
    item = VStr <$> t /\ r = VStr <$> t
    /\ from_option Store.title_ok true t = true.
Proof.
  intros Hs H.
  assert (Joi.base s = Joi.StringT /\ Joi.valids s = []
          /\ Joi.rules s = [Joi.Min 2] /\ Joi.flag_default s = None)
    as (Hb & Hv & Hr & Hd)
    by (destruct Hs as [-> | ->]; repeat split).
  pose proof (string_typed l s item r Hb H) as Ht.
  destruct item as [v|].
  - destruct Ht as [[x ->] ->]. exists (Some x).
    repeat split. simpl. apply title_ok_length.
    exact (string_min_length l s 2 x _ Hb Hv Hr H).
  - exists None. rewrite Ht, Hd. repeat split.
Qed.

Lemma title_required l item r :
  Joi.validate_value l (Joi.string |> Joi.min 2 |> Joi.required) item
    = inr r ->
  exists t, item = Some (VStr t) /\ r = Some (VStr t)
            /\ Store.title_ok t = true.
Proof.
  intros H. destruct item as [v|]; [|discriminate].
  destruct (title_schema l _ _ _ (or_introl eq_refl) H)
    as ([t|] & Hi & Hr & Hok); [|discriminate].
  exists t. auto.
Qed.

(** [Joi.string().allow('')]. *)
Lemma text_schema l item r :
  Joi.validate_value l (Joi.string |> Joi.allow [EmptyString]) item
    = inr r ->
  exists d : option string, item = VStr <$> d /\ r = VStr <$> d.
Proof.
  intros H.
  pose proof (string_typed l (Joi.string |> Joi.allow [EmptyString])
                item r eq_refl H) as Ht.
  destruct item as [v|].
  - destruct Ht as [[x ->] ->]. exists (Some x). auto.
  - exists None. rewrite Ht. auto.
Qed.

(** [Joi.string().valid(...)], with the default or without. *)
Lemma category_schema l s item r :
  s = (Joi.string
         |> Joi.valid ["food"; "tech"; "travel"; "fitness"; "other"]
         |> Joi.default (VStr "other"))
  \/ s = (Joi.string
            |> Joi.valid ["food"; "tech"; "travel"; "fitness"; "other"]) ->
  Joi.validate_value l s item = inr r ->
  match item with
  | Some v => exists c, v = VStr c /\ r = Some v
                        /\ Store.category_ok c = true
  | None => r = Joi.flag_default s
  end.
Proof.
  intros Hs H.
  assert (Joi.base s = Joi.StringT /\ Joi.only s = true
          /\ Joi.valids s = ["food"; "tech"; "travel"; "fitness"; "other"])
    as (Hb & Ho & Hv)
    by (destruct Hs as [-> | ->]; repeat split).
  pose proof (string_typed l s item r Hb H) as Ht.
  destruct item as [v|]; [|exact Ht].
  destruct Ht as [_ ->].
  destruct (valid_only l s v _ Hb Ho H) as (c & -> & Hin).
  exists c. repeat split. apply category_ok_listed. rewrite <- Hv. exact Hin.
Qed.

(** [Joi.number().min(0).max(100)], with the default or without. *)
Lemma discount_schema l s item r :
  s = (Joi.number |> Joi.min 0 |> Joi.max 100
                  |> Joi.default (VNum 0%float))
  \/ s = (Joi.number |> Joi.min 0 |> Joi.max 100) ->
  Joi.validate_value l s item = inr r ->
  match item with
  | Some _ => exists n, r = Some (VNum n) /\ Store.discount_ok n = true
  | None => r = Joi.flag_default s
  end.
Proof.
  intros Hs H. destruct item as [v|].
  - apply (number_bounded l s v r); try exact H;
      destruct Hs as [-> | ->]; reflexivity.
  - apply (absent_result l s r H).
Qed.

Lemma perkSchema_keys : List.NoDup (map fst (Joi.children perkSchema)).
Proof.
  simpl. repeat (constructor; [simpl; intuition discriminate|]).
  constructor.
Qed.

Lemma perkUpdateSchema_keys :
  List.NoDup (map fst (Joi.children perkUpdateSchema)).
Proof.
  simpl. repeat (constructor; [simpl; intuition discriminate|]).
  constructor.
Qed.

Lemma validate_object_children S o o' :
  Joi.validate_object S o = inr o' ->
  Joi.validate_children (Joi.children S) o = inr o'.
Proof.
  unfold Joi.validate_object.
  destruct (Joi.validate_children (Joi.children S) o) as [e|o1];
    [discriminate|].
  destruct (Joi.first_unknown (Joi.children S) o); [discriminate|].
  destruct (Joi.validate_key_rules (Joi.key_rules S) o1); congruence.
Qed.

(** What [validate] lets through is an object that passed
    [validate_object]. *)
Lemma validate_inr S b v :
  Joi.validate S (Some b) = inr v ->
  exists o o', v = Some o' /\ Joi.validate_object S o = inr o'
               /\ (b = VObj o
                   \/ exists x, b = VStr x
                                /\ Joi.object_of_string x = Some o).
Proof.
  unfold Joi.validate.
  destruct b as [| | |x| |o]; try discriminate.
  - destruct (Joi.object_of_string x) as [o|] eqn:E; [|discriminate].
    destruct (Joi.validate_object S o) as [e|o'] eqn:V; [discriminate|].
    simpl. intros [= <-]. exists o, o'. eauto 10.
  - destruct (Joi.validate_object S o) as [e|o'] eqn:V; [discriminate|].
    simpl. intros [= <-]. exists o, o'. eauto 10.
Qed.

(** The five fields of an object the create schema let through, next to
    what was submitted. *)
Lemma create_fields o o' :
  Joi.validate_object perkSchema o = inr o' ->
  exists t c n (d m : option string),
    (Obj.get "title" o = Some (VStr t)
     /\ Obj.get "title" o' = Some (VStr t) /\ Store.title_ok t = true)
    /\ (Obj.get "description" o = VStr <$> d
        /\ Obj.get "description" o' = VStr <$> d)
    /\ (Obj.get "category" o' = Some (VStr c)
        /\ Store.category_ok c = true
        /\ (Obj.get "category" o = None -> c = "other"))
    /\ (Obj.get "discountPercent" o' = Some (VNum n)
        /\ Store.discount_ok n = true
        /\ (Obj.get "discountPercent" o = None -> n = 0%float))
    /\ (Obj.get "merchant" o = VStr <$> m
        /\ Obj.get "merchant" o' = VStr <$> m).
Proof.
  intros H. apply validate_object_children in H.
  eassert (Joi.validate_value "title" _ _ = inr (Obj.get "title" o'))
    as Rt by (eapply validate_children_result;
              [apply perkSchema_keys | in_children | exact H]).
  eassert (Joi.validate_value "description" _ _
           = inr (Obj.get "description" o'))
    as Rd by (eapply validate_children_result;
              [apply perkSchema_keys | in_children | exact H]).
  eassert (Joi.validate_value "category" _ _ = inr (Obj.get "category" o'))
    as Rc by (eapply validate_children_result;
              [apply perkSchema_keys | in_children | exact H]).
  eassert (Joi.validate_value "discountPercent" _ _
           = inr (Obj.get "discountPercent" o'))
    as Rn by (eapply validate_children_result;
              [apply perkSchema_keys | in_children | exact H]).
  eassert (Joi.validate_value "merchant" _ _ = inr (Obj.get "merchant" o'))
    as Rm by (eapply validate_children_result;
              [apply perkSchema_keys | in_children | exact H]).
  apply title_required in Rt. destruct Rt as (t & Ht & Ht' & Htok).
  apply text_schema in Rd. destruct Rd as (d & Hd & Hd').
  apply text_schema in Rm. destruct Rm as (m & Hm & Hm').
  apply (category_schema _ _ _ _ (or_introl eq_refl)) in Rc.
  apply (discount_schema _ _ _ _ (or_introl eq_refl)) in Rn.
  assert (exists c, Obj.get "category" o' = Some (VStr c)
                    /\ Store.category_ok c = true
                    /\ (Obj.get "category" o = None -> c = "other"))
    as (c & Hc).
  { destruct (Obj.get "category" o) as [v|].
    - destruct Rc as (c & -> & -> & Hok). exists c.
      repeat split; [exact Hok | discriminate].
    - exists "other". rewrite Rc. repeat split. }
  assert (exists n, Obj.get "discountPercent" o' = Some (VNum n)
                    /\ Store.discount_ok n = true
                    /\ (Obj.get "discountPercent" o = None -> n = 0%float))
    as (n & Hn).
  { destruct (Obj.get "discountPercent" o) as [v|].
    - destruct Rn as (n & -> & Hok). exists n.
      repeat split; [exact Hok | discriminate].
    - exists 0%float. rewrite Rn. repeat split. }
  exists t, c, n, d, m. auto 10.
Qed.

(** The five fields of an object the update schema let through: each is
    absent exactly when it was not submitted. *)
Lemma update_fields o o' :
  Joi.validate_object perkUpdateSchema o = inr o' ->
  exists (t d c : option string) (n : option float) (m : option string),
    (Obj.get "title" o = VStr <$> t /\ Obj.get "title" o' = VStr <$> t
     /\ from_option Store.title_ok true t = true)
    /\ (Obj.get "description" o = VStr <$> d
        /\ Obj.get "description" o' = VStr <$> d)
    /\ (Obj.get "category" o = VStr <$> c
        /\ Obj.get "category" o' = VStr <$> c
        /\ from_option Store.category_ok true c = true)
    /\ (Obj.get "discountPercent" o' = VNum <$> n
        /\ from_option Store.discount_ok true n = true
        /\ (Obj.get "discountPercent" o = None -> n = None))
    /\ (Obj.get "merchant" o = VStr <$> m
        /\ Obj.get "merchant" o' = VStr <$> m).
Proof.
  intros H. apply validate_object_children in H.
  eassert (Joi.validate_value "title" _ _ = inr (Obj.get "title" o'))
    as Rt by (eapply validate_children_result;
              [apply perkUpdateSchema_keys | in_children | exact H]).
  eassert (Joi.validate_value "description" _ _
           = inr (Obj.get "description" o'))
    as Rd by (eapply validate_children_result;
              [apply perkUpdateSchema_keys | in_children | exact H]).
  eassert (Joi.validate_value "category" _ _ = inr (Obj.get "category" o'))
    as Rc by (eapply validate_children_result;
              [apply perkUpdateSchema_keys | in_children | exact H]).
  eassert (Joi.validate_value "discountPercent" _ _
           = inr (Obj.get "discountPercent" o'))
    as Rn by (eapply validate_children_result;
              [apply perkUpdateSchema_keys | in_children | exact H]).
  eassert (Joi.validate_value "merchant" _ _ = inr (Obj.get "merchant" o'))
    as Rm by (eapply validate_children_result;
              [apply perkUpdateSchema_keys | in_children | exact H]).
  apply (title_schema _ _ _ _ (or_intror eq_refl)) in Rt.
  destruct Rt as (t & Ht & Ht' & Htok).
  apply text_schema in Rd. destruct Rd as (d & Hd & Hd').
  apply text_schema in Rm. destruct Rm as (m & Hm & Hm').
  apply (category_schema _ _ _ _ (or_intror eq_refl)) in Rc.
  apply (discount_schema _ _ _ _ (or_intror eq_refl)) in Rn.
  assert (exists c : option string,
            Obj.get "category" o = VStr <$> c
            /\ Obj.get "category" o' = VStr <$> c
            /\ from_option Store.category_ok true c = true)
    as (c & Hc).
  { destruct (Obj.get "category" o) as [v|].
    - destruct Rc as (c & -> & -> & Hok). exists (Some c). auto.
    - exists None. rewrite Rc. auto. }
  assert (exists n : option float,
            Obj.get "discountPercent" o' = VNum <$> n
            /\ from_option Store.discount_ok true n = true
            /\ (Obj.get "discountPercent" o = None -> n = None))
    as (n & Hn).
  { destruct (Obj.get "discountPercent" o) as [v|].
    - destruct Rn as (n & -> & Hok). exists (Some n).
      repeat split; [exact Hok | discriminate].
    - exists None. rewrite Rn. auto. }
  exists t, d, c, n, m. auto 10.
Qed.

End SchemaFacts.

(** ** The collection *)

Section StoreFacts.

Lemma string_field_fmap k o (d : option string) :
  Obj.get k o = VStr <$> d -> Store.string_field k o = Some d.
Proof.
  intros H. unfold Store.string_field. rewrite H. destruct d; reflexivity.
Qed.

Lemma number_field_fmap k o (n : option float) :
  Obj.get k o = VNum <$> n -> Store.number_field k o = Some n.
Proof.
  intros H. unfold Store.number_field. rewrite H. destruct n; reflexivity.
Qed.

Lemma category_ok_In c :
  Store.category_ok c = true -> In c Store.categories.
Proof.
  unfold Store.category_ok. intros H. apply existsb_exists in H.
  destruct H as [x [Hx E]]. apply String.eqb_eq in E. subst x. exact Hx.
Qed.

Lemma code_is_spec n err : code_is n err = true <-> code err = Some n.
Proof.
  unfold code_is. destruct (code err) as [c|].
  - rewrite Z.eqb_eq. split; congruence.
  - split; discriminate.
Qed.

End StoreFacts.

(** ** The invariant of the collection *)

Section Invariant.
Context {index : Store.UniqueIndex}.

Lemma empty_consistent : Store.consistent Store.empty.
Proof. intros i p H. simpl in H. rewrite lookup_empty in H. discriminate. Qed.

Lemma new_perk_constraints f id now p :
  Store.submitted_ok f = true ->
  Store.new_perk f id now = Some p ->
  Store.field_constraints p = true.
Proof.
  unfold Store.submitted_ok, Store.new_perk, Store.field_constraints.
  destruct f as [[t|] d c n m]; simpl; [|discriminate].
  intros H [= <-]. simpl.
  apply andb_true_iff in H. destruct H as [H Hn].
  apply andb_true_iff in H. destruct H as [Ht Hc].
  rewrite Ht. destruct c as [c|], n as [n|]; simpl in *;
    rewrite ?Hc, ?Hn; reflexivity.
Qed.

Lemma merged_constraints f old :
  Store.submitted_ok f = true ->
  Store.field_constraints old = true ->
  Store.field_constraints (Store.merged f old) = true.
Proof.
  unfold Store.submitted_ok, Store.field_constraints.
  destruct f as [t d c n m]; simpl.
  intros H Ho.
  apply andb_true_iff in H. destruct H as [H Hn].
  apply andb_true_iff in H. destruct H as [Ht Hc].
  apply andb_true_iff in Ho. destruct Ho as [Ho Hn'].
  apply andb_true_iff in Ho. destruct Ho as [Ht' Hc'].
  destruct t, c, n; simpl in *;
    rewrite ?Ht, ?Hc, ?Hn, ?Ht', ?Hc', ?Hn'; reflexivity.
Qed.

(** Every call leaves a consistent collection consistent. *)
Lemma exec_consistent (X : Type) (c : Perk.call X) (s : Store.collection) :
  Store.consistent s -> Store.consistent (snd (Store.exec X c s)).
Proof.
  intros Hs. destruct c as [f o|id|fields|id set new|id]; simpl;
    try exact Hs.
  - unfold Store.create.
    destruct (Store.read fields) as [f|]; [|exact Hs].
    destruct (Store.submitted_ok f) eqn:Hok; [|exact Hs]. simpl.
    destruct (Store.new_perk f _ _) as [p|] eqn:Hp; [|exact Hs].
    destruct (Store.collides None p s); [exact Hs|].
    intros i q. simpl. rewrite lookup_insert.
    case_decide; [intros [= <-]; eapply new_perk_constraints; eauto|apply Hs].
  - unfold Store.findByIdAndUpdate.
    destruct (Store.docs s !! id) as [old|] eqn:Hold; [|exact Hs].
    destruct (Store.read (spread set)) as [f|]; [|exact Hs].
    destruct (Store.submitted_ok f) eqn:Hok; [|exact Hs]. simpl.
    destruct (Store.collides _ _ s); [exact Hs|].
    intros i q. simpl. rewrite lookup_insert.
    case_decide; [intros [= <-]; apply merged_constraints; eauto|apply Hs].
  - unfold Store.findByIdAndDelete.
    destruct (Store.docs s !! id) as [old|] eqn:Hold; [|exact Hs].
    intros i q. simpl. rewrite lookup_delete.
    case_decide; [discriminate|apply Hs].
Qed.

(** So does every handler. *)
Lemma run_consistent (A : Type) (h : handler A) : forall s,
  Store.consistent s -> Store.consistent (snd (run Store.exec h s)).
Proof.
  induction h as [a|X c k IH]; intros s Hs; simpl; [exact Hs|].
  pose proof (exec_consistent X c s Hs) as Hc.
  destruct (Store.exec X c s) as [r s']. apply IH. exact Hc.
Qed.
End Invariant.

(** ** Handlers that stop at validation, and what create hands over *)

Section HandlerFacts.
Context {conv : Joi.Convert}.

(** A handler that stops at validation touches no persistence layer. *)
Lemma send_runs (S : Type) (P : persistence S) code b s :
  calls P (send code b) s = []
  /\ run P (send code b) s = (Sent {| status := code; json := b |}, s).
Proof. split; reflexivity. Qed.

Lemma createPerk_invalid req e :
  Joi.validate perkSchema (body req) = inl e ->
  createPerk req = send 400 (Message (Joi.message e)).
Proof. intros H. unfold createPerk. rewrite H. reflexivity. Qed.

Lemma validate_object_title o :
  Obj.get "title" o = None
  \/ (exists t, Obj.get "title" o = Some (VStr t) /\ String.length t < 2) ->
  exists e, Joi.validate_object perkSchema o = inl e.
Proof.
  intros H. unfold Joi.validate_object. simpl.
  destruct H as [H|(t & H & Hlen)]; rewrite H.
  - simpl. eauto.
  - unfold Joi.validate_value. simpl.
    destruct t as [|a [|b t]]; simpl in *; try lia; eauto.
Qed.

(** C1, as amended. A create request whose body is defined and, as the
    object the schema looks at, omits [title] or carries a title string
    shorter than 2, is answered 400 with the message of the validation
    error; so is a defined body that is no object at all (null, an array,
    a number, a string that does not parse to an object). The handler
    makes no persistence call, so whatever the persistence layer is, its
    state is left as it was. *)
Theorem createPerk_title_missing_or_short (req : request) (b : value) :
  body req = Some b ->
  (forall o, object_of_body b = Some o ->
     Obj.get "title" o = None
     \/ (exists t, Obj.get "title" o = Some (VStr t)
                   /\ String.length t < 2)) ->
  exists e,
    Joi.validate perkSchema (body req) = inl e
    /\ createPerk req = send 400 (Message (Joi.message e))
    /\ forall (S : Type) (P : persistence S) (s : S),
         calls P (createPerk req) s = []
         /\ run P (createPerk req) s
            = (Sent {| status := 400; json := Message (Joi.message e) |}, s).
Proof.
  intros Hb Ht.
  assert (exists e, Joi.validate perkSchema (Some b) = inl e) as [e Hv].
  { destruct b as [| | |x| |o]; simpl in *; eauto.
    - destruct (Joi.object_of_string x) as [o|]; [|eauto].
      destruct (validate_object_title o (Ht o eq_refl)) as [e He].
      rewrite He. simpl. eauto.
    - destruct (validate_object_title o (Ht o eq_refl)) as [e He].
      rewrite He. simpl. eauto. }
  rewrite <- Hb in Hv.
  exists e. split; [exact Hv|].
  rewrite (createPerk_invalid req e Hv).
  split; [reflexivity|]. intros S P s. apply send_runs.
Qed.

(** C10. A create request whose body has a key outside title,
    description, category, discountPercent and merchant is answered 400
    with the message of the validation error, and the handler makes no
    persistence call. *)
Theorem createPerk_unknown_key (req : request) (o : obj) (k : string) :
  body req = Some (VObj o) ->
  In k (Obj.keys o) ->
  ~ In k ["title"; "description"; "category"; "discountPercent"; "merchant"] ->
  exists e,
    Joi.validate perkSchema (body req) = inl e
    /\ createPerk req = send 400 (Message (Joi.message e))
    /\ forall (S : Type) (P : persistence S) (s : S),
         calls P (createPerk req) s = []
         /\ run P (createPerk req) s
            = (Sent {| status := 400; json := Message (Joi.message e) |}, s).
Proof.
  intros Hb Hin Hout.
  destruct (validate_object_unknown perkSchema o k Hin Hout) as [e He].
  assert (Joi.validate perkSchema (body req) = inl e) as Hv.
  { rewrite Hb. simpl. rewrite He. reflexivity. }
  exists e. split; [exact Hv|].
  rewrite (createPerk_invalid req e Hv).
  split; [reflexivity|]. intros S P s. apply send_runs.
Qed.

(** The update schema rejects undeclared keys in the same way. *)
Lemma updatePerk_unknown_key (req : request) (o : obj) (k : string) :
  body req = Some (VObj o) ->
  In k (Obj.keys o) ->
  ~ In k ["title"; "description"; "category"; "discountPercent"; "merchant"] ->
  exists e,
    Joi.validate perkUpdateSchema (body req) = inl e
    /\ updatePerk req = send 400 (Message (Joi.message e)).
Proof.
  intros Hb Hin Hout.
  destruct (validate_object_unknown perkUpdateSchema o k Hin Hout) as [e He].
  assert (Joi.validate perkUpdateSchema (body req) = inl e) as Hv.
  { rewrite Hb. simpl. rewrite He. reflexivity. }
  exists e. split; [exact Hv|].
  unfold updatePerk. rewrite Hv. reflexivity.
Qed.

(** C7. An update request whose body is the empty object is answered
    400 (the update schema wants at least one key), and the handler makes
    no persistence call. *)
Theorem updatePerk_empty_body (req : request) :
  body req = Some (VObj []) ->
  updatePerk req
    = send 400 (Message (Joi.message (Joi.object_min "value" 1)))
  /\ forall (S : Type) (P : persistence S) (s : S),
       calls P (updatePerk req) s = []
       /\ run P (updatePerk req) s
          = (Sent {| status := 400;
                     json := Message (Joi.message (Joi.object_min "value" 1)) |}, s).
Proof.
  intros Hb. assert (updatePerk req
    = send 400 (Message (Joi.message (Joi.object_min "value" 1)))) as ->.
  { unfold updatePerk. rewrite Hb. reflexivity. }
  split; [reflexivity|]. intros S P s. apply send_runs.
Qed.

Lemma createPerk_calls (S : Type) (P : persistence S) req v s :
  Joi.validate perkSchema (body req) = inr v ->
  calls P (createPerk req) s = [Made (Perk.create (spread v))].
Proof.
  intros H. unfold createPerk. rewrite H. simpl.
  destruct (P perk (Perk.create (spread v)) s) as [[doc|err] s']; simpl.
  - reflexivity.
  - destruct (code_is 11000 err); reflexivity.
Qed.

(** C2. When the body of a create request passes validation, the one
    persistence call of the handler is a create whose fields have a
    category among food, tech, travel, fitness and other, and a
    discountPercent in the closed interval from 0 to 100. *)
Theorem createPerk_valid_fields (req : request) (b : value) (v : option obj) :
  body req = Some b ->
  Joi.validate perkSchema (body req) = inr v ->
  exists c n,
    (forall (S : Type) (P : persistence S) (s : S),
       calls P (createPerk req) s = [Made (Perk.create (spread v))])
    /\ Obj.get "category" (spread v) = Some (VStr c)
    /\ In c ["food"; "tech"; "travel"; "fitness"; "other"]
    /\ Obj.get "discountPercent" (spread v) = Some (VNum n)
    /\ (0 <=? n)%float = true /\ (n <=? 100)%float = true.
Proof.
  intros Hb Hv. pose proof Hv as Hv'. rewrite Hb in Hv'.
  destruct (validate_inr _ _ _ Hv') as (o & o' & -> & Ho & _).
  destruct (create_fields o o' Ho)
    as (t & c & n & d & m & _ & _ & (Hc & Hcok & _) & (Hn & Hnok & _) & _).
  exists c, n. simpl.
  split; [intros S P s; apply (createPerk_calls S P req _ s Hv)|].
  split; [exact Hc|]. split; [apply category_ok_In, Hcok|].
  split; [exact Hn|].
  unfold Store.discount_ok in Hnok. apply andb_true_iff in Hnok. exact Hnok.
Qed.

(** C4. When the create call of a create request is rejected with the
    duplicate-key code 11000, the handler answers 409 with the
    duplicate-perk message; the error is not handed to [next]. This holds
    for every persistence layer. *)
Theorem createPerk_duplicate (S : Type) (P : persistence S)
    (req : request) (v : option obj) (s s' : S) (err : exn) :
  Joi.validate perkSchema (body req) = inr v ->
  P _ (Perk.create (spread v)) s = (Rejected err, s') ->
  code err = Some 11000%Z ->
  run P (createPerk req) s
  = (Sent {| status := 409;
             json := Message "Duplicate perk for this merchant" |}, s').
Proof.
  intros Hv HP Hc. unfold createPerk. rewrite Hv. simpl. rewrite HP.
  apply code_is_spec in Hc. rewrite Hc. reflexivity.
Qed.
End HandlerFacts.

(** ** Handlers on the collection *)

Section StoreHandlerFacts.
Context {conv : Joi.Convert} {index : Store.UniqueIndex}.

(** C9. For the identifier of a stored perk, the first delete request
    is answered 200 with [{ ok: true }] and a second delete request for
    the same identifier 404 with the not-found message. *)
Theorem deletePerk_twice (req : request) (s : Store.collection) (p : perk) :
  Store.docs s !! params_id req = Some p ->
  exists s1,
    run Store.exec (deletePerk req) s
    = (Sent {| status := 200; json := Ok true |}, s1)
    /\ run Store.exec (deletePerk req) s1
       = (Sent {| status := 404; json := Message "Perk not found" |}, s1).
Proof.
  intros H. eexists. unfold deletePerk. simpl.
  unfold Store.findByIdAndDelete. rewrite H. simpl.
  split; [reflexivity|].
  cbn [Store.docs]. rewrite lookup_delete_eq. reflexivity.
Qed.

(** C5, as amended. An update request whose identifier matches no
    stored perk is answered 404 when its body is valid; when the body is
    invalid it is answered 400 with the validation message, since
    validation comes before the lookup. In both cases the collection is
    left as it was. *)
Theorem updatePerk_unknown_id (req : request) (s : Store.collection) :
  Store.docs s !! params_id req = None ->
  run Store.exec (updatePerk req) s
  = match Joi.validate perkUpdateSchema (body req) with
    | inr _ =>
        (Sent {| status := 404; json := Message "Perk not found" |}, s)
    | inl e =>
        (Sent {| status := 400; json := Message (Joi.message e) |}, s)
    end.
Proof.
  intros H. unfold updatePerk.
  destruct (Joi.validate perkUpdateSchema (body req)) as [e|v];
    [reflexivity|].
  simpl. unfold Store.findByIdAndUpdate. rewrite H. reflexivity.
Qed.

Lemma find_by_title t (s : Store.collection) :
  let perks := Store.find (Perk.by_title t) (Perk.by_createdAt (-1)) s in
  Sorted Store.newer_first perks
  /\ perks ≡ₚ List.filter (fun p => String.eqb (title p) t)
                (map snd (map_to_list (Store.docs s)))
  /\ forall p, In p perks <->
       title p = t /\ exists i, Store.docs s !! i = Some p.
Proof.
  simpl. unfold Store.find. simpl.
  split; [apply Sorted_merge_sort; apply _|].
  split; [apply merge_sort_Permutation|].
  intros p. rewrite <- list_elem_of_In. rewrite merge_sort_Permutation.
  rewrite list_elem_of_In, List.filter_In. unfold Store.selected.
  rewrite String.eqb_eq, <- list_elem_of_In, list_elem_of_fmap.
  split.
  - intros [([i q] & -> & Hin) Ht]. split; [exact Ht|].
    exists i. apply elem_of_map_to_list in Hin. exact Hin.
  - intros [Ht [i Hi]]. split; [|exact Ht].
    exists (i, p). split; [reflexivity|]. apply elem_of_map_to_list. exact Hi.
Qed.

(** C6, as amended. Filter by title: when the title parameter is absent
    or the empty string, the handler answers 400 with an explanatory
    message and makes no query; when it is a non-empty string, the handler
    makes one query, for the perks whose title equals it, sorted by
    creation time descending, and answers 200 with the result: exactly the
    stored perks with that title, newest first. *)
Theorem filterPerks_title (req : request) (s : Store.collection) :
  match query_title req with
  | None =>
      filterPerks req
      = send 400 (Message "Title query parameter is required")
  | Some t =>
      if String.eqb t EmptyString then
        filterPerks req
        = send 400 (Message "Title query parameter is required")
      else
        exists perks,
          calls Store.exec (filterPerks req) s
          = [Made (Perk.find (Perk.by_title t) (Perk.by_createdAt (-1)))]
          /\ run Store.exec (filterPerks req) s
             = (Sent {| status := 200; json := Perks perks |}, s)
          /\ Sorted Store.newer_first perks
          /\ forall p, In p perks <->
               title p = t /\ exists i, Store.docs s !! i = Some p
  end.
Proof.
  unfold filterPerks. destruct (query_title req) as [t|]; [|reflexivity].
  destruct (String.eqb t EmptyString); simpl; [reflexivity|].
  eexists. split; [reflexivity|]. split; [reflexivity|].
  destruct (find_by_title t s) as (Hs & _ & Hm). split; assumption.
Qed.

(** The store accepts what the create schema let through, unless the new
    perk collides with a stored one. *)
Lemma create_validated o o' (s : Store.collection) :
  Joi.validate_object perkSchema o = inr o' ->
  exists p,
    Store.create o' s
    = (if Store.collides None p s then (Rejected Store.duplicate, s)
       else (Fulfilled p,
             {| Store.docs := <[Store.next_id s := p]> (Store.docs s);
                Store.next_id := S (Store.next_id s);
                Store.clock := S (Store.clock s) |}))
    /\ _id p = Store.next_id s
    /\ Obj.get "title" o = Some (VStr (title p))
    /\ Obj.get "merchant" o = VStr <$> merchant p
    /\ Obj.get "description" o = VStr <$> description p
    /\ (Obj.get "category" o = None -> category p = "other")
    /\ (Obj.get "discountPercent" o = None -> discountPercent p = 0%float)
    /\ Store.field_constraints p = true.
Proof.
  intros H.
  destruct (create_fields o o' H)
    as (t & c & n & d & m & (Ht & Ht' & Htok) & (Hd & Hd')
        & (Hc & Hcok & Hcdef) & (Hn & Hnok & Hndef) & (Hm & Hm')).
  exists {| _id := Store.next_id s; title := t; description := d;
            category := c; discountPercent := n; merchant := m;
            createdAt := Store.clock s |}.
  split; [|simpl; repeat split; try assumption;
           unfold Store.field_constraints; simpl;
           rewrite Htok, Hcok, Hnok; reflexivity].
  unfold Store.create, Store.read.
  rewrite (string_field_fmap "title" o' (Some t) Ht').
  rewrite (string_field_fmap "description" o' d Hd').
  rewrite (string_field_fmap "category" o' (Some c) Hc).
  rewrite (number_field_fmap "discountPercent" o' (Some n) Hn).
  rewrite (string_field_fmap "merchant" o' m Hm').
  unfold Store.submitted_ok. simpl. rewrite Htok, Hcok, Hnok. reflexivity.
Qed.

(** The store accepts what the update schema let through, unless the
    merged perk collides with another stored one; fields that were not
    submitted are not part of the merge. *)
Lemma update_validated o o' id old new (s : Store.collection) :
  Joi.validate_object perkUpdateSchema o = inr o' ->
  Store.docs s !! id = Some old ->
  exists f,
    Store.findByIdAndUpdate id (Some o') new s
    = (if Store.collides (Some id) (Store.merged f old) s
       then (Rejected Store.duplicate, s)
       else (Fulfilled (Some (if new then Store.merged f old else old)),
             {| Store.docs := <[id := Store.merged f old]> (Store.docs s);
                Store.next_id := Store.next_id s;
                Store.clock := Store.clock s |}))
    /\ Obj.get "title" o = VStr <$> Store.s_title f
    /\ Obj.get "description" o = VStr <$> Store.s_description f
    /\ Obj.get "category" o = VStr <$> Store.s_category f
    /\ (Obj.get "discountPercent" o = None
        -> Store.s_discountPercent f = None)
    /\ Obj.get "merchant" o = VStr <$> Store.s_merchant f.
Proof.
  intros H Hold.
  destruct (update_fields o o' H)
    as (t & d & c & n & m & (Ht & Ht' & Htok) & (Hd & Hd')
        & (Hc & Hc' & Hcok) & (Hn & Hnok & Hnabs) & (Hm & Hm')).
  exists {| Store.s_title := t; Store.s_description := d;
            Store.s_category := c; Store.s_discountPercent := n;
            Store.s_merchant := m |}.
  split.
  - unfold Store.findByIdAndUpdate, Store.read. rewrite Hold. simpl.
    rewrite (string_field_fmap "title" o' t Ht').
    rewrite (string_field_fmap "description" o' d Hd').
    rewrite (string_field_fmap "category" o' c Hc').
    rewrite (number_field_fmap "discountPercent" o' n Hn).
    rewrite (string_field_fmap "merchant" o' m Hm').
    unfold Store.submitted_ok. simpl. rewrite Htok, Hcok, Hnok. reflexivity.
  - simpl. repeat split; assumption.
Qed.

(** C8, as amended. For a valid create payload that omits category and
    discountPercent, unless the store reports a uniqueness violation, the
    handler answers 201 with the created perk wrapped in an object; the
    created perk has category other and discount 0, keeps the submitted
    title and merchant, and is stored under its identifier. *)
Theorem createPerk_defaults (req : request) (o : obj) (v : option obj)
    (s : Store.collection) :
  body req = Some (VObj o) ->
  Joi.validate perkSchema (body req) = inr v ->
  Obj.get "category" o = None ->
  Obj.get "discountPercent" o = None ->
  duplicate_key (fst (Store.exec _ (Perk.create (spread v)) s)) = false ->
  exists p s',
    run Store.exec (createPerk req) s
    = (Sent {| status := 201; json := OnePerk p |}, s')
    /\ category p = "other"
    /\ discountPercent p = 0%float
    /\ Obj.get "title" o = Some (VStr (title p))
    /\ Obj.get "merchant" o = VStr <$> merchant p
    /\ Store.docs s' !! _id p = Some p.
Proof.
  intros Hb Hv Hcat Hdis Hdup.
  pose proof Hv as Hv'. rewrite Hb in Hv'.
  destruct (validate_inr _ _ _ Hv') as (o0 & o' & -> & Ho & Hsrc).
  destruct Hsrc as [[= <-]|(x & [=] & _)].
  destruct (create_validated o o' s Ho)
    as (p & Hrun & Hid & Ht & Hm & _ & Hc & Hn & _).
  simpl in Hdup. rewrite Hrun in Hdup.
  unfold createPerk. rewrite Hv. simpl. rewrite Hrun.
  destruct (Store.collides None p s); [discriminate|].
  eexists p, _. split; [reflexivity|].
  cbn [Store.docs]. rewrite Hid, lookup_insert_eq. auto 10.
Qed.

(** C3, as amended. For an update request with a valid body and the
    identifier of a stored perk, unless the store reports a uniqueness
    violation, the handler answers 200 with the post-update perk wrapped
    in an object; that perk is what the collection now holds under the
    identifier, other perks are untouched, every field the body does not
    carry keeps its stored value (none is reset to a creation default),
    and the submitted string fields take the submitted values. *)
Theorem updatePerk_partial_merge (req : request) (o : obj) (v : option obj)
    (s : Store.collection) (old : perk) :
  body req = Some (VObj o) ->
  Joi.validate perkUpdateSchema (body req) = inr v ->
  Store.docs s !! params_id req = Some old ->
  duplicate_key
    (fst (Store.exec _ (Perk.findByIdAndUpdate (params_id req) v true) s))
    = false ->
  exists new s',
    run Store.exec (updatePerk req) s
    = (Sent {| status := 200; json := OnePerk new |}, s')
    /\ Store.docs s' !! params_id req = Some new
    /\ (forall id, id <> params_id req ->
          Store.docs s' !! id = Store.docs s !! id)
    /\ ((Obj.get "title" o = None -> title new = title old)
        /\ (Obj.get "description" o = None
            -> description new = description old)
        /\ (Obj.get "category" o = None -> category new = category old)
        /\ (Obj.get "discountPercent" o = None
            -> discountPercent new = discountPercent old)
        /\ (Obj.get "merchant" o = None -> merchant new = merchant old)
        /\ _id new = _id old
        /\ createdAt new = createdAt old)
    /\ ((forall x, Obj.get "title" o = Some (VStr x) -> title new = x)
        /\ (forall x, Obj.get "description" o = Some (VStr x)
                      -> description new = Some x)
        /\ (forall x, Obj.get "category" o = Some (VStr x)
                      -> category new = x)
        /\ (forall x, Obj.get "merchant" o = Some (VStr x)
                      -> merchant new = Some x)).
Proof.
  intros Hb Hv Hold Hdup.
  pose proof Hv as Hv'. rewrite Hb in Hv'.
  destruct (validate_inr _ _ _ Hv') as (o0 & o' & -> & Ho & Hsrc).
  destruct Hsrc as [[= <-]|(x & [=] & _)].
  destruct (update_validated o o' (params_id req) old true s Ho Hold)
    as (f & Hrun & Ht & Hd & Hc & Hn & Hm).
  simpl in Hdup. rewrite Hrun in Hdup.
  unfold updatePerk. rewrite Hv. simpl. rewrite Hrun.
  destruct (Store.collides _ _ s); [discriminate|].
  eexists (Store.merged f old), _. split; [reflexivity|].
  cbn [Store.docs].
  split; [apply lookup_insert_eq|].
  split; [intros id Hid; apply lookup_insert_ne; congruence|].
  unfold Store.merged; simpl.
  destruct f as [t d c n m]; simpl in *.
  split.
  - repeat split; intros E.
    + rewrite E in Ht. destruct t; [discriminate|reflexivity].
    + rewrite E in Hd. destruct d; [discriminate|reflexivity].
    + rewrite E in Hc. destruct c; [discriminate|reflexivity].
    + rewrite (Hn E). reflexivity.
    + rewrite E in Hm. destruct m; [discriminate|reflexivity].
  - repeat split; intros x E.
    + rewrite E in Ht. destruct t; simpl in *; congruence.
    + rewrite E in Hd. destruct d; simpl in *; congruence.
    + rewrite E in Hc. destruct c; simpl in *; congruence.
    + rewrite E in Hm. destruct m; simpl in *; congruence.
Qed.
End StoreHandlerFacts.

(** ** The handlers on concrete requests *)

(** A request without a body passes both schemas as [undefined], and the
    create handler hands the empty object to the model. *)
Lemma createPerk_undefined_body {conv : Joi.Convert} (req : request) :
  body req = None ->
  exists k, createPerk req = Await (Perk.create []) k.
Proof. intros H. unfold createPerk. rewrite H. simpl. eauto. Qed.

Lemma createPerk_title_missing_or_short_witness :
  exists e,
    Joi.validate (conv := integers_only) perkSchema
      (body (Examples.post (VObj [("merchant", VStr "Acme")]))) = inl e
    /\ createPerk (conv := integers_only)
         (Examples.post (VObj [("merchant", VStr "Acme")]))
       = send 400 (Message (Joi.message e))
    /\ forall (S : Type) (P : persistence S) (s : S),
         calls P (createPerk (conv := integers_only)
                    (Examples.post (VObj [("merchant", VStr "Acme")]))) s = []
         /\ run P (createPerk (conv := integers_only)
                     (Examples.post (VObj [("merchant", VStr "Acme")]))) s
            = (Sent {| status := 400; json := Message (Joi.message e) |}, s).
Proof.
  apply (@createPerk_title_missing_or_short integers_only
           (Examples.post (VObj [("merchant", VStr "Acme")]))
           (VObj [("merchant", VStr "Acme")])).
  - reflexivity.
  - simpl. intros o [= <-]. left. reflexivity.
Defined.

(** A request without a body supplies no title either, but it is not
    answered 400: the schema lets the undefined body through without an
    error, and the handler makes its create call, on the empty object; on
    the collection that call is rejected and the error goes to [next]. *)
Lemma createPerk_title_missing_undefined_body :
  body MoreExamples.no_body = None
  /\ Joi.validate (conv := integers_only) perkSchema
       (body MoreExamples.no_body) = inr None
  /\ calls (Store.exec (index := Store.merchant_index))
           (createPerk (conv := integers_only) MoreExamples.no_body)
           Store.empty
     = [Made (Perk.create [])]
  /\ run (Store.exec (index := Store.merchant_index))
         (createPerk (conv := integers_only) MoreExamples.no_body)
         Store.empty
     = (Next Store.invalid, Store.empty).
Proof. repeat split. Qed.

Lemma createPerk_unknown_key_witness :
  exists e,
    Joi.validate (conv := integers_only) perkSchema
      (body (Examples.post
               (VObj [("title", VStr "Free Coffee"); ("price", VNum 3%float)])))
    = inl e
    /\ createPerk (conv := integers_only)
         (Examples.post
            (VObj [("title", VStr "Free Coffee"); ("price", VNum 3%float)]))
       = send 400 (Message (Joi.message e))
    /\ forall (S : Type) (P : persistence S) (s : S),
         calls P (createPerk (conv := integers_only)
                    (Examples.post
                       (VObj [("title", VStr "Free Coffee");
                              ("price", VNum 3%float)]))) s = []
         /\ run P (createPerk (conv := integers_only)
                     (Examples.post
                        (VObj [("title", VStr "Free Coffee");
                               ("price", VNum 3%float)]))) s
            = (Sent {| status := 400; json := Message (Joi.message e) |}, s).
Proof.
  apply (@createPerk_unknown_key integers_only
           (Examples.post
              (VObj [("title", VStr "Free Coffee"); ("price", VNum 3%float)]))
           [("title", VStr "Free Coffee"); ("price", VNum 3%float)]
           "price").
  - reflexivity.
  - simpl. right. left. reflexivity.
  - simpl. intuition discriminate.
Defined.

Lemma updatePerk_empty_body_witness :
  updatePerk (conv := integers_only) (Examples.patch 0 (VObj []))
  = send 400 (Message (Joi.message (Joi.object_min "value" 1)))
  /\ forall (S : Type) (P : persistence S) (s : S),
       calls P (updatePerk (conv := integers_only)
                  (Examples.patch 0 (VObj []))) s = []
       /\ run P (updatePerk (conv := integers_only)
                   (Examples.patch 0 (VObj []))) s
          = (Sent {| status := 400;
                     json := Message
                               (Joi.message (Joi.object_min "value" 1)) |}, s).
Proof.
  apply (@updatePerk_empty_body integers_only (Examples.patch 0 (VObj []))).
  reflexivity.
Defined.

Lemma createPerk_valid_fields_witness :
  exists c n,
    (forall (S : Type) (P : persistence S) (s : S),
       calls P (createPerk (conv := integers_only)
                  (Examples.post (VObj Examples.free_coffee))) s
       = [Made (Perk.create Examples.free_coffee_validated)])
    /\ Obj.get "category" Examples.free_coffee_validated = Some (VStr c)
    /\ In c ["food"; "tech"; "travel"; "fitness"; "other"]
    /\ Obj.get "discountPercent" Examples.free_coffee_validated
       = Some (VNum n)
    /\ (0 <=? n)%float = true /\ (n <=? 100)%float = true.
Proof.
  apply (@createPerk_valid_fields integers_only
           (Examples.post (VObj Examples.free_coffee))
           (VObj Examples.free_coffee)
           (Some Examples.free_coffee_validated)).
  - reflexivity.
  - reflexivity.
Defined.

Lemma createPerk_duplicate_witness :
  run (Store.exec (index := Store.merchant_index))
      (createPerk (conv := integers_only)
         (Examples.post (VObj Examples.free_coffee)))
      Examples.one_perk
  = (Sent {| status := 409;
             json := Message "Duplicate perk for this merchant" |},
     Examples.one_perk).
Proof.
  apply (@createPerk_duplicate integers_only Store.collection
           (Store.exec (index := Store.merchant_index))
           (Examples.post (VObj Examples.free_coffee))
           (Some Examples.free_coffee_validated)
           Examples.one_perk Examples.one_perk Store.duplicate).
  - reflexivity.
  - vm_compute. reflexivity.
  - reflexivity.
Defined.

Lemma deletePerk_twice_witness :
  exists s1,
    run (Store.exec (index := Store.merchant_index))
        (deletePerk (Examples.by_id 0)) Examples.one_perk
    = (Sent {| status := 200; json := Ok true |}, s1)
    /\ run (Store.exec (index := Store.merchant_index))
           (deletePerk (Examples.by_id 0)) s1
       = (Sent {| status := 404; json := Message "Perk not found" |}, s1).
Proof.
  apply (@deletePerk_twice Store.merchant_index (Examples.by_id 0)
           Examples.one_perk Examples.acme).
  vm_compute. reflexivity.
Defined.

Lemma updatePerk_unknown_id_witness :
  run (Store.exec (index := Store.merchant_index))
      (updatePerk (conv := integers_only)
         (Examples.patch 7 (VObj [("discountPercent", VNum 10%float)])))
      Examples.two_perks
  = (Sent {| status := 404; json := Message "Perk not found" |},
     Examples.two_perks).
Proof.
  apply (@updatePerk_unknown_id integers_only Store.merchant_index
           (Examples.patch 7 (VObj [("discountPercent", VNum 10%float)]))
           Examples.two_perks).
  vm_compute. reflexivity.
Defined.

(** With an empty body the same request is answered 400: validation comes
    before the lookup. *)
Lemma updatePerk_unknown_id_invalid_body :
  Store.docs Examples.two_perks !! 7 = None
  /\ run (Store.exec (index := Store.merchant_index))
         (updatePerk (conv := integers_only) (Examples.patch 7 (VObj [])))
         Examples.two_perks
     = (Sent {| status := 400;
                json := Message (Joi.message (Joi.object_min "value" 1)) |},
        Examples.two_perks).
Proof. split; vm_compute; reflexivity. Qed.

(** A title parameter that is present but empty is answered 400, and no
    query is made. *)
Lemma filterPerks_empty_title :
  query_title (Examples.search (Some EmptyString)) = Some EmptyString
  /\ filterPerks (Examples.search (Some EmptyString))
     = send 400 (Message "Title query parameter is required")
  /\ run (Store.exec (index := Store.merchant_index))
         (filterPerks (Examples.search (Some EmptyString)))
         Examples.two_perks
     = (Sent {| status := 400;
                json := Message "Title query parameter is required" |},
        Examples.two_perks).
Proof. repeat split. Qed.

Lemma createPerk_defaults_witness :
  exists p s',
    run (Store.exec (index := Store.merchant_index))
        (createPerk (conv := integers_only)
           (Examples.post (VObj Examples.free_coffee)))
        Store.empty
    = (Sent {| status := 201; json := OnePerk p |}, s')
    /\ category p = "other"
    /\ discountPercent p = 0%float
    /\ Obj.get "title" Examples.free_coffee = Some (VStr (title p))
    /\ Obj.get "merchant" Examples.free_coffee = VStr <$> merchant p
    /\ Store.docs s' !! _id p = Some p.
Proof.
  apply (@createPerk_defaults integers_only Store.merchant_index
           (Examples.post (VObj Examples.free_coffee))
           Examples.free_coffee
           (Some Examples.free_coffee_validated)
           Store.empty).
  - reflexivity.
  - reflexivity.
  - reflexivity.
  - reflexivity.
  - vm_compute. reflexivity.
Defined.

(** The same valid payload, without category and discount, is answered 409
    once a perk of that merchant is stored. *)
Lemma createPerk_defaults_duplicate :
  Joi.validate (conv := integers_only) perkSchema
    (body (Examples.post (VObj Examples.free_coffee)))
  = inr (Some Examples.free_coffee_validated)
  /\ Obj.get "category" Examples.free_coffee = None
  /\ Obj.get "discountPercent" Examples.free_coffee = None
  /\ run (Store.exec (index := Store.merchant_index))
         (createPerk (conv := integers_only)
            (Examples.post (VObj Examples.free_coffee)))
         Examples.one_perk
     = (Sent {| status := 409;
                json := Message "Duplicate perk for this merchant" |},
        Examples.one_perk).
Proof. repeat split; vm_compute; reflexivity. Qed.

Lemma updatePerk_partial_merge_witness :
  exists new s',
    run (Store.exec (index := Store.merchant_index))
        (updatePerk (conv := integers_only)
           (Examples.patch 1 (VObj [("discountPercent", VNum 12.5%float)])))
        Examples.two_perks
    = (Sent {| status := 200; json := OnePerk new |}, s')
    /\ Store.docs s' !! 1 = Some new
    /\ (forall id, id <> 1 ->
          Store.docs s' !! id = Store.docs Examples.two_perks !! id)
    /\ ((Obj.get "title" [("discountPercent", VNum 12.5%float)] = None
         -> title new = title Examples.bolt)
        /\ (Obj.get "description" [("discountPercent", VNum 12.5%float)]
            = None
            -> description new = description Examples.bolt)
        /\ (Obj.get "category" [("discountPercent", VNum 12.5%float)] = None
            -> category new = category Examples.bolt)
        /\ (Obj.get "discountPercent" [("discountPercent", VNum 12.5%float)]
            = None
            -> discountPercent new = discountPercent Examples.bolt)
        /\ (Obj.get "merchant" [("discountPercent", VNum 12.5%float)] = None
            -> merchant new = merchant Examples.bolt)
        /\ _id new = _id Examples.bolt
        /\ createdAt new = createdAt Examples.bolt)
    /\ ((forall x, Obj.get "title" [("discountPercent", VNum 12.5%float)]
                   = Some (VStr x) -> title new = x)
        /\ (forall x,
              Obj.get "description" [("discountPercent", VNum 12.5%float)]
              = Some (VStr x) -> description new = Some x)
        /\ (forall x,
              Obj.get "category" [("discountPercent", VNum 12.5%float)]
              = Some (VStr x) -> category new = x)
        /\ (forall x,
              Obj.get "merchant" [("discountPercent", VNum 12.5%float)]
              = Some (VStr x) -> merchant new = Some x)).
Proof.
  apply (@updatePerk_partial_merge integers_only Store.merchant_index
           (Examples.patch 1 (VObj [("discountPercent", VNum 12.5%float)]))
           [("discountPercent", VNum 12.5%float)]
           (Some [("discountPercent", VNum 12.5%float)])
           Examples.two_perks Examples.bolt).
  - reflexivity.
  - reflexivity.
  - vm_compute. reflexivity.
  - vm_compute. reflexivity.
Defined.

(** A valid update of an existing perk that takes the merchant of another
    stored perk with the same title is rejected by the store, and the
    handler forwards the error instead of answering 200. *)
Lemma updatePerk_partial_merge_collision :
  Joi.validate (conv := integers_only) perkUpdateSchema
    (body (Examples.patch 1 (VObj [("merchant", VStr "Acme")])))
  = inr (Some [("merchant", VStr "Acme")])
  /\ Store.docs Examples.two_perks !! 1 = Some Examples.bolt
  /\ run (Store.exec (index := Store.merchant_index))
         (updatePerk (conv := integers_only)
            (Examples.patch 1 (VObj [("merchant", VStr "Acme")])))
         Examples.two_perks
     = (Next Store.duplicate, Examples.two_perks).
Proof. repeat split; vm_compute; reflexivity. Qed.

(** ** Worked examples *)

Example message_of_missing_title :
  createPerk (conv := integers_only)
    (Examples.post (VObj [("merchant", VStr "Acme")]))
  = send 400 (Message (Joi.quoted "title" +:+ " is required")).
Proof. reflexivity. Qed.

Example message_of_bad_category :
  createPerk (conv := integers_only)
    (Examples.post (VObj [("title", VStr "Free Coffee");
                          ("category", VStr "drinks")]))
  = send 400
      (Message (Joi.quoted "category"
                +:+ " must be one of [food, tech, travel, fitness, other]")).
Proof. reflexivity. Qed.

Example discount_string_is_converted :
  Joi.validate (conv := integers_only) perkSchema
    (Some (VObj [("title", VStr "Free Coffee");
                 ("discountPercent", VStr "12")]))
  = inr (Some [("title", VStr "Free Coffee");
               ("discountPercent", VNum 12%float);
               ("category", VStr "other")]).
Proof. vm_compute. reflexivity. Qed.

Example discount_out_of_range :
  updatePerk (conv := integers_only)
    (Examples.patch 0 (VObj [("discountPercent", VNum 100.5%float)]))
  = send 400
      (Message (Joi.quoted "discountPercent"
                +:+ " must be less than or equal to 100")).
Proof. vm_compute. reflexivity. Qed.

Example list_is_newest_first :
  run (Store.exec (index := Store.merchant_index))
      (getAllPerks (Examples.search None)) Examples.two_perks
  = (Sent {| status := 200;
             json := Perks [Examples.bolt; Examples.acme] |},
     Examples.two_perks).
Proof. vm_compute. reflexivity. Qed.

Example get_missing_perk :
  run (Store.exec (index := Store.merchant_index))
      (getPerk (Examples.by_id 7)) Examples.two_perks
  = (Sent {| status := 404; json := Message "Perk not found" |},
     Examples.two_perks).
Proof. vm_compute. reflexivity. Qed.

(** ** Keys of objects *)

Module ObjKeys.

Lemma keys_get k o : In k (Obj.keys o) <-> exists v, Obj.get k o = Some v.
Proof.
  induction o as [|[k1 v1] o IH]; simpl.
  - split; [tauto|intros [v H]; discriminate].
  - destruct (String.eqb_spec k k1) as [->|Hk].
    + split; eauto.
    + rewrite IH. split; [intros [E|H]; [congruence|exact H]|auto].
Qed.

Lemma set_same k v o : Obj.get k o = Some v -> Obj.set k v o = o.
Proof.
  induction o as [|[k1 v1] o IH]; simpl; [discriminate|].
  destruct (String.eqb_spec k k1) as [->|Hk].
  - intros [= ->]. reflexivity.
  - intros H. rewrite (IH H). reflexivity.
Qed.

Lemma keys_set_present k v v0 o :
  Obj.get k o = Some v0 -> Obj.keys (Obj.set k v o) = Obj.keys o.
Proof.
  unfold Obj.keys. induction o as [|[k1 v1] o IH]; simpl; [discriminate|].
  destruct (String.eqb_spec k k1) as [->|Hk]; simpl.
  - reflexivity.
  - intros H. rewrite (IH H). reflexivity.
Qed.

Lemma keys_set_absent k v o :
  Obj.get k o = None -> Obj.keys (Obj.set k v o) = (Obj.keys o ++ [k])%list.
Proof.
  unfold Obj.keys. induction o as [|[k1 v1] o IH]; simpl; [reflexivity|].
  destruct (String.eqb_spec k k1) as [->|Hk]; simpl; [discriminate|].
  intros H. rewrite (IH H). reflexivity.
Qed.

End ObjKeys.

Section Children.
Context {conv : Joi.Convert}.

(** The children pass as soon as every declared key does on the submitted
    object: the keys are validated independently of each other. *)
Lemma validate_children_complete ks : forall o,
  List.NoDup (map fst ks) ->
  (forall k s, In (k, s) ks ->
     exists r, Joi.validate_value k s (Obj.get k o) = inr r) ->
  exists o', Joi.validate_children ks o = inr o'.
Proof.
  induction ks as [|[k1 s1] ks IH]; intros o Hnd Hall; simpl; [eauto|].
  inversion Hnd as [|? ? Hnotin Hnd']; subst.
  destruct (Hall k1 s1 (or_introl eq_refl)) as [r Hr]. rewrite Hr.
  apply IH; [exact Hnd'|].
  intros k s Hin.
  assert (k1 <> k) as Hne.
  { intros ->. apply Hnotin. apply (in_map fst) in Hin. exact Hin. }
  rewrite (stored_other k1 r o k Hne). apply Hall. right. exact Hin.
Qed.

(** One declared key that fails on the submitted object makes the
    children fail. *)
Lemma validate_children_error ks : forall o k s e,
  List.NoDup (map fst ks) ->
  In (k, s) ks ->
  Joi.validate_value k s (Obj.get k o) = inl e ->
  exists e', Joi.validate_children ks o = inl e'.
Proof.
  induction ks as [|[k1 s1] ks IH]; intros o k s e Hnd Hin He; [destruct Hin|].
  simpl. inversion Hnd as [|? ? Hnotin Hnd']; subst.
  destruct (Joi.validate_value k1 s1 (Obj.get k1 o)) as [e1|r] eqn:E1;
    [eauto|].
  destruct Hin as [[= -> ->]|Hin]; [congruence|].
  assert (k1 <> k) as Hne.
  { intros ->. apply Hnotin. apply (in_map fst) in Hin. exact Hin. }
  apply (IH _ k s e Hnd' Hin). rewrite (stored_other k1 r o k Hne). exact He.
Qed.

(** An object whose declared keys all validate to themselves is left as it
    is. *)
Lemma validate_children_fixed ks : forall o,
  (forall k s, In (k, s) ks ->
     Joi.validate_value k s (Obj.get k o) = inr (Obj.get k o)) ->
  Joi.validate_children ks o = inr o.
Proof.
  induction ks as [|[k1 s1] ks IH]; intros o Hall; simpl; [reflexivity|].
  rewrite (Hall k1 s1 (or_introl eq_refl)).
  assert (Joi.stored k1 (Obj.get k1 o) o = o) as ->.
  { unfold Joi.stored. destruct (Obj.get k1 o) as [v|] eqn:E.
    - apply ObjKeys.set_same. exact E.
    - reflexivity. }
  apply IH. intros k s Hin. apply Hall. right. exact Hin.
Qed.

(** Validating the declared keys introduces no key beyond them. *)
Lemma validate_children_keys ks : forall o o' k,
  Joi.validate_children ks o = inr o' ->
  In k (Obj.keys o') -> In k (Obj.keys o) \/ In k (map fst ks).
Proof.
  intros o o' k H Hin.
  destruct (in_dec String.string_dec k (map fst ks)) as [Hd|Hd]; [auto|].
  left. apply ObjKeys.keys_get. apply ObjKeys.keys_get in Hin.
  rewrite <- (validate_children_frame ks o o' k H Hd). exact Hin.
Qed.

(** Without defaults the validated object has the keys of the submitted
    one, in the same order. *)
Lemma validate_children_same_keys ks : forall o o',
  (forall k s, In (k, s) ks -> Joi.flag_default s = None) ->
  Joi.validate_children ks o = inr o' ->
  Obj.keys o' = Obj.keys o.
Proof.
  induction ks as [|[k1 s1] ks IH]; intros o o' Hdef H; simpl in H.
  - congruence.
  - destruct (Joi.validate_value k1 s1 (Obj.get k1 o)) as [e|r] eqn:E;
      [discriminate|].
    rewrite (IH _ _ (fun k s Hin => Hdef k s (or_intror Hin)) H).
    destruct (Obj.get k1 o) as [v|] eqn:G.
    + destruct (validate_value_defined _ _ _ _ E) as [v' ->]. simpl.
      apply (ObjKeys.keys_set_present k1 v' v o G).
    + apply absent_result in E.
      rewrite (Hdef k1 s1 (or_introl eq_refl)) in E. subst r.
      simpl. rewrite G. reflexivity.
Qed.

Lemma first_unknown_none ks o :
  Joi.first_unknown ks o = None <->
  forall k, In k (Obj.keys o) -> In k (map fst ks).
Proof.
  unfold Joi.first_unknown. split.
  - intros H k Hin. pose proof (List.find_none _ _ H k Hin) as Hf.
    simpl in Hf. apply negb_false_iff, existsb_exists in Hf.
    destruct Hf as [x [Hx E]]. apply String.eqb_eq in E. subst x. exact Hx.
  - intros H. destruct (List.find _ (Obj.keys o)) as [k|] eqn:E;
      [|reflexivity].
    apply List.find_some in E. destruct E as [Hin Hf].
    apply negb_true_iff in Hf. exfalso.
    assert (existsb (String.eqb k) (map fst ks) = true) as Ht.
    { apply existsb_exists. exists k. split; [apply H, Hin|].
      apply String.eqb_eq. reflexivity. }
    congruence.
Qed.

(** What an object schema lets through has declared keys only. *)
Lemma validate_object_declared S o o' k :
  Joi.validate_object S o = inr o' ->
  In k (Obj.keys o') -> In k (map fst (Joi.children S)).
Proof.
  intros H Hin. pose proof (validate_object_children S o o' H) as Hc.
  unfold Joi.validate_object in H. rewrite Hc in H.
  destruct (Joi.first_unknown (Joi.children S) o) eqn:U; [discriminate|].
  destruct (validate_children_keys _ _ _ k Hc Hin) as [Ho|Hd]; [|exact Hd].
  exact (proj1 (first_unknown_none _ _) U k Ho).
Qed.

End Children.

(** ** Validating twice *)

Section Idempotence.
Context {conv : Joi.Convert}.

(** The base check returns a value that passes it unchanged. *)
Lemma validate_base_idem l s v v2 :
  Joi.validate_base l s v = inr v2 -> Joi.validate_base l s v2 = inr v2.
Proof.
  unfold Joi.validate_base.
  destruct (Joi.base s); destruct v as [| |n|x| |]; try discriminate.
  - destruct (String.eqb x EmptyString) eqn:E.
    + destruct (Joi.get_rule_min (Joi.rules s)) as [[| |]|] eqn:R;
        try discriminate.
      intros [= <-]. rewrite E. reflexivity.
    + intros [= <-]. rewrite E. reflexivity.
  - destruct (is_infinity n) eqn:Ei; [discriminate|].
    destruct (is_nan n) eqn:En; [discriminate|].
    destruct (_ || _) eqn:Eu; [discriminate|].
    destruct (n =? 0)%float eqn:E0; intros [= <-].
    + reflexivity.
    + rewrite Ei, En, Eu, E0. reflexivity.
Qed.

(** What a key schema lets through passes it again unchanged, provided a
    number schema lists no allowed values and the default, if any, is
    itself valid. *)
Lemma validate_value_idem l s item r :
  (Joi.base s = Joi.NumberT -> Joi.valids s = []) ->
  (forall d, Joi.flag_default s = Some d ->
     Joi.validate_value l s (Some d) = inr (Some d)) ->
  Joi.validate_value l s item = inr r ->
  Joi.validate_value l s r = inr r.
Proof.
  intros Hnum Hdef H. destruct item as [v|].
  - unfold Joi.validate_value in H.
    destruct (Joi.coerce l s v) as [e|v1] eqn:C; [discriminate|].
    destruct (Joi.matches_valids s v1) eqn:M.
    + injection H as <-. unfold Joi.validate_value.
      assert (Joi.coerce l s v1 = inr v1) as ->.
      { unfold Joi.coerce. destruct (Joi.base s) eqn:B; [reflexivity|].
        unfold Joi.matches_valids in M. rewrite (Hnum eq_refl) in M.
        destruct v1; discriminate. }
      rewrite M. reflexivity.
    + destruct (Joi.only s) eqn:O; [discriminate|].
      destruct (Joi.validate_base l s v1) as [e|v2] eqn:B; [discriminate|].
      destruct (Joi.validate_rules l (Joi.rules s) v2) eqn:R; [discriminate|].
      injection H as <-. unfold Joi.validate_value.
      assert (Joi.coerce l s v2 = inr v2) as ->.
      { unfold Joi.coerce. destruct (Joi.base s) eqn:Bs; [reflexivity|].
        unfold Joi.validate_base in B. rewrite Bs in B.
        destruct v1; try discriminate.
        destruct (is_infinity n); [discriminate|].
        destruct (is_nan n); [discriminate|].
        destruct (_ || _); [discriminate|].
        injection B as <-. reflexivity. }
      assert (Joi.matches_valids s v2 = false) as ->.
      { unfold Joi.validate_base in B. destruct (Joi.base s) eqn:Bs.
        - destruct v1; try discriminate.
          destruct (String.eqb s0 EmptyString).
          + destruct (Joi.get_rule_min (Joi.rules s)) as [[| |]|];
              try discriminate. injection B as <-. exact M.
          + injection B as <-. exact M.
        - unfold Joi.matches_valids. rewrite (Hnum eq_refl).
          destruct v2; reflexivity. }
      rewrite O, (validate_base_idem l s v1 v2 B), R. reflexivity.
  - pose proof (absent_result l s r H) as ->.
    destruct (Joi.flag_default s) as [d|] eqn:D; [apply Hdef; reflexivity|].
    exact H.
Qed.

End Idempotence.

Section ObjectIdempotence.
Context {conv : Joi.Convert}.

Lemma validate_object_idem S o o' :
  List.NoDup (map fst (Joi.children S)) ->
  stable_children S ->
  Joi.validate_object S o = inr o' ->
  Joi.validate_object S o' = inr o'.
Proof.
  intros Hnd Hst H.
  pose proof (validate_object_children S o o' H) as Hc.
  assert (Joi.validate_children (Joi.children S) o' = inr o') as Hfix.
  { apply validate_children_fixed. intros k s Hin.
    destruct (Hst k s Hin) as [Hnum Hdef].
    apply (validate_value_idem k s (Obj.get k o) _ Hnum Hdef).
    apply (validate_children_result _ _ _ _ _ Hnd Hin Hc). }
  assert (Joi.first_unknown (Joi.children S) o' = None) as Hun.
  { apply first_unknown_none. intros k Hin.
    apply (validate_object_declared S o o' k H Hin). }
  unfold Joi.validate_object in *. rewrite Hc in H. rewrite Hfix, Hun.
  destruct (Joi.first_unknown (Joi.children S) o); [discriminate|].
  destruct (Joi.validate_key_rules (Joi.key_rules S) o'); [discriminate|].
  reflexivity.
Qed.

Lemma perkSchema_stable : stable_children perkSchema.
Proof.
  intros k s Hin. simpl in Hin.
  repeat (destruct Hin as [[= <- <-]|Hin];
          [split; [try discriminate; reflexivity
                  |intros d [= <-]; reflexivity] |]); try destruct Hin.
Qed.

Lemma perkUpdateSchema_stable : stable_children perkUpdateSchema.
Proof.
  intros k s Hin. simpl in Hin.
  repeat (destruct Hin as [[= <- <-]|Hin];
          [split; [try discriminate; reflexivity
                  |intros d [= <-]; reflexivity] |]); try destruct Hin.
Qed.

End ObjectIdempotence.

(** ** Fields that are rejected *)

(** A number equal to zero, of either sign, lies in [0, 100]. *)
Lemma zero_in_range (n : float) :
  (n =? 0)%float = true -> Store.discount_ok n = true.
Proof.
  unfold Store.discount_ok. rewrite FloatAxioms.eqb_spec, !FloatAxioms.leb_spec.
  replace (FloatOps.Prim2SF 0) with (SpecFloat.S754_zero false) by (vm_compute; reflexivity).
  replace (FloatOps.Prim2SF 100)
    with (SpecFloat.S754_finite false 7036874417766400 (-46))
    by (vm_compute; reflexivity).
  destruct (FloatOps.Prim2SF n) as [sg|sg| |sg m e].
  - intros _. destruct sg; vm_compute; reflexivity.
  - intros H. exfalso. destruct sg; vm_compute in H; discriminate H.
  - intros H. exfalso. vm_compute in H. discriminate H.
  - intros H. exfalso. destruct sg; vm_compute in H; discriminate H.
Qed.

Section FieldErrors.
Context {conv : Joi.Convert}.

(** A number outside [0, 100] does not pass the discount schema. *)
Lemma discount_rejected l s n :
  s = (Joi.number |> Joi.min 0 |> Joi.max 100 |> Joi.default (VNum 0%float))
  \/ s = (Joi.number |> Joi.min 0 |> Joi.max 100) ->
  Store.discount_ok n = false ->
  exists e, Joi.validate_value l s (Some (VNum n)) = inl e.
Proof.
  intros Hs Hn.
  destruct (Joi.validate_value l s (Some (VNum n))) as [e|r] eqn:E; [eauto|].
  exfalso.
  assert (Joi.base s = Joi.NumberT /\ Joi.valids s = [] /\ Joi.only s = false
          /\ Joi.rules s = [Joi.Min 0; Joi.Max 100]) as (Hb & Hv & Ho & Hr)
    by (destruct Hs as [-> | ->]; repeat split).
  unfold Joi.validate_value, Joi.coerce in E. rewrite Hb in E. simpl in E.
  rewrite Hv, Ho in E. simpl in E.
  pose proof (number_rules_bounded l s n r Hb Hr E) as (n' & -> & Hok).
  unfold Joi.validate_base in E. rewrite Hb in E.
  destruct (is_infinity n); [discriminate|].
  destruct (is_nan n); [discriminate|].
  destruct (_ || _); [discriminate|].
  destruct (n =? 0)%float eqn:E0.
  - rewrite (zero_in_range n E0) in Hn. discriminate.
  - destruct (Joi.validate_rules _ _ _); [discriminate|].
    injection E as <-. congruence.
Qed.

(** A category that is not one of the five strings does not pass. *)
Lemma category_rejected l s v :
  s = (Joi.string
         |> Joi.valid ["food"; "tech"; "travel"; "fitness"; "other"]
         |> Joi.default (VStr "other"))
  \/ s = (Joi.string
            |> Joi.valid ["food"; "tech"; "travel"; "fitness"; "other"]) ->
  (forall c, v = VStr c -> Store.category_ok c = false) ->
  exists e, Joi.validate_value l s (Some v) = inl e.
Proof.
  intros Hs Hv.
  destruct (Joi.validate_value l s (Some v)) as [e|r] eqn:E; [eauto|].
  exfalso. destruct (category_schema l s (Some v) r Hs E) as (c & -> & _ & Hok).
  rewrite (Hv c eq_refl) in Hok. discriminate.
Qed.

(** A value that is not a string does not pass a string schema. *)
Lemma not_a_string_rejected l s v :
  Joi.base s = Joi.StringT ->
  (forall x, v <> VStr x) ->
  exists e, Joi.validate_value l s (Some v) = inl e.
Proof.
  intros Hb Hv.
  destruct (Joi.validate_value l s (Some v)) as [e|r] eqn:E; [eauto|].
  exfalso. destruct (string_typed l s (Some v) r Hb E) as [[x ->] _].
  exact (Hv x eq_refl).
Qed.

End FieldErrors.

(** ** The handlers on every persistence layer *)

Section EveryPersistence.
Context {conv : Joi.Convert}.
Context {S : Type} (P : persistence S).

Lemma updatePerk_calls (req : request) (v : option obj) (s : S) :
  Joi.validate perkUpdateSchema (body req) = inr v ->
  calls P (updatePerk req) s
  = [Made (Perk.findByIdAndUpdate (params_id req) v true)].
Proof.
  intros H. unfold updatePerk. rewrite H. simpl.
  destruct (P _ (Perk.findByIdAndUpdate (params_id req) v true) s)
    as [[[doc|]|err] s']; reflexivity.
Qed.

Lemma updatePerk_invalid req e :
  Joi.validate perkUpdateSchema (body req) = inl e ->
  updatePerk req = send 400 (Message (Joi.message e)).
Proof. intros H. unfold updatePerk. rewrite H. reflexivity. Qed.

Lemma validate_declared Sch b v k :
  Joi.validate Sch b = inr v ->
  In k (Obj.keys (spread v)) -> In k (map fst (Joi.children Sch)).
Proof.
  destruct b as [b|]; [|intros [= <-] []].
  intros H. destruct (validate_inr _ _ _ H) as (o & o' & -> & Ho & _).
  simpl. apply (validate_object_declared Sch o o' k Ho).
Qed.

(** X1. No undeclared key reaches the model: whatever the persistence
    layer, every object a handler hands to a call (the fields of a
    create, the [$set] of an update) has keys among title, description,
    category, discountPercent and merchant only. *)
Theorem handlers_submit_declared_keys (req : request) (s : S)
    (h : request -> handler outcome) (m : made) (k : string) :
  In h handlers ->
  In m (calls P (h req) s) ->
  In k (Obj.keys (submitted_object m)) ->
  In k ["title"; "description"; "category"; "discountPercent"; "merchant"].
Proof.
  intros Hh Hm Hk. unfold handlers, plain_handlers in Hh. simpl in Hh.
  destruct Hh as [<-|[<-|[<-|[<-|[<-|[<-|[]]]]]]].
  - destruct (Joi.validate perkSchema (body req)) as [e|v] eqn:V.
    + rewrite (createPerk_invalid req e V) in Hm. destruct Hm.
    + rewrite (createPerk_calls _ P req v s V) in Hm.
      destruct Hm as [<-|[]]. simpl in Hk.
      apply (validate_declared perkSchema _ _ k V Hk).
  - unfold filterPerks in Hm. destruct (query_title req) as [t|]; [|destruct Hm].
    destruct (negb _); [|destruct Hm]. simpl in Hm.
    destruct (P _ _ s) as [[x|err] s']; simpl in Hm;
      destruct Hm as [<-|[]]; destruct Hk.
  - unfold getPerk in Hm. simpl in Hm.
    destruct (P _ _ s) as [[[x|]|err] s']; simpl in Hm;
      destruct Hm as [<-|[]]; destruct Hk.
  - unfold getAllPerks in Hm. simpl in Hm.
    destruct (P _ _ s) as [[x|err] s']; simpl in Hm;
      destruct Hm as [<-|[]]; destruct Hk.
  - destruct (Joi.validate perkUpdateSchema (body req)) as [e|v] eqn:V.
    + rewrite (updatePerk_invalid req e V) in Hm. destruct Hm.
    + rewrite (updatePerk_calls req v s V) in Hm.
      destruct Hm as [<-|[]]. simpl in Hk.
      apply (validate_declared perkUpdateSchema _ _ k V Hk).
  - unfold deletePerk in Hm. simpl in Hm.
    destruct (P _ _ s) as [[[x|]|err] s']; simpl in Hm;
      destruct Hm as [<-|[]]; destruct Hk.
Qed.

(** X2. Whatever the persistence layer and the request, each of the six
    handlers makes at most one persistence call. *)
Theorem handlers_call_at_most_once (req : request) (s : S)
    (h : request -> handler outcome) :
  In h handlers -> length (calls P (h req) s) <= 1.
Proof.
  intros Hh. unfold handlers, plain_handlers in Hh. simpl in Hh.
  destruct Hh as [<-|[<-|[<-|[<-|[<-|[<-|[]]]]]]].
  - destruct (Joi.validate perkSchema (body req)) as [e|v] eqn:V.
    + rewrite (createPerk_invalid req e V). simpl. lia.
    + rewrite (createPerk_calls _ P req v s V). simpl. lia.
  - unfold filterPerks. destruct (query_title req) as [t|]; [|simpl; lia].
    destruct (negb _); [|simpl; lia]. simpl.
    destruct (P _ _ s) as [[x|err] s']; simpl; lia.
  - unfold getPerk. simpl.
    destruct (P _ _ s) as [[[x|]|err] s']; simpl; lia.
  - unfold getAllPerks. simpl.
    destruct (P _ _ s) as [[x|err] s']; simpl; lia.
  - destruct (Joi.validate perkUpdateSchema (body req)) as [e|v] eqn:V.
    + rewrite (updatePerk_invalid req e V). simpl. lia.
    + rewrite (updatePerk_calls req v s V). simpl. lia.
  - unfold deletePerk. simpl.
    destruct (P _ _ s) as [[[x|]|err] s']; simpl; lia.
Qed.

(** X3. [next] is called only with the error of a rejected call: when a
    handler ends in [next(err)], it made exactly one persistence call and
    that call was rejected with [err]; validation failures and missing
    perks never reach [next]. *)
Theorem next_forwards_a_rejection (req : request) (s s' : S)
    (h : request -> handler outcome) (err : exn) :
  In h handlers ->
  run P (h req) s = (Next err, s') ->
  exists m, calls P (h req) s = [m] /\ rejects P s m err s'.
Proof.
  intros Hh. unfold handlers, plain_handlers in Hh. simpl in Hh.
  destruct Hh as [<-|[<-|[<-|[<-|[<-|[<-|[]]]]]]].
  - unfold createPerk.
    destruct (Joi.validate perkSchema (body req)) as [e|v]; [discriminate|].
    simpl. destruct (P _ _ s) as [[x|e] s1] eqn:E; simpl; [discriminate|].
    destruct (code_is 11000 e); simpl; [discriminate|].
    intros [= <- <-]. eexists. split; [reflexivity|exact E].
  - unfold filterPerks. destruct (query_title req) as [t|]; [|discriminate].
    destruct (negb _); [|discriminate]. simpl.
    destruct (P _ _ s) as [[x|e] s1] eqn:E; simpl; [discriminate|].
    intros [= <- <-]. eexists. split; [reflexivity|exact E].
  - unfold getPerk. simpl.
    destruct (P _ _ s) as [[[x|]|e] s1] eqn:E; simpl; try discriminate.
    intros [= <- <-]. eexists. split; [reflexivity|exact E].
  - unfold getAllPerks. simpl.
    destruct (P _ _ s) as [[x|e] s1] eqn:E; simpl; [discriminate|].
    intros [= <- <-]. eexists. split; [reflexivity|exact E].
  - unfold updatePerk.
    destruct (Joi.validate perkUpdateSchema (body req)) as [e|v];
      [discriminate|].
    simpl. destruct (P _ _ s) as [[[x|]|e] s1] eqn:E; simpl; try discriminate.
    intros [= <- <-]. eexists. split; [reflexivity|exact E].
  - unfold deletePerk. simpl.
    destruct (P _ _ s) as [[[x|]|e] s1] eqn:E; simpl; try discriminate.
    intros [= <- <-]. eexists. split; [reflexivity|exact E].
Qed.

(** X4. The five handlers other than create forward every rejection,
    whatever its code: when the call they make is rejected with [err],
    they end in [next(err)] and send nothing, also for the duplicate-key
    code 11000. *)
Theorem plain_handlers_forward_rejections (req : request) (s s' : S)
    (h : request -> handler outcome) (m : made) (err : exn) :
  In h plain_handlers ->
  In m (calls P (h req) s) ->
  rejects P s m err s' ->
  run P (h req) s = (Next err, s').
Proof.
  intros Hh. unfold plain_handlers in Hh. simpl in Hh.
  destruct Hh as [<-|[<-|[<-|[<-|[<-|[]]]]]].
  - unfold filterPerks. destruct (query_title req) as [t|]; [|intros []].
    destruct (negb _); [|intros []]. simpl.
    destruct (P _ _ s) as [r s1] eqn:E. intros Hm Hr.
    assert (m = Made (Perk.find (Perk.by_title t) (Perk.by_createdAt (-1))))
      as -> by (destruct r; simpl in Hm; destruct Hm as [<-|[]]; reflexivity).
    simpl in Hr. rewrite E in Hr. injection Hr as -> ->. reflexivity.
  - unfold getPerk. simpl.
    destruct (P _ _ s) as [r s1] eqn:E. intros Hm Hr.
    assert (m = Made (Perk.findById (params_id req)))
      as -> by (destruct r as [[x|]|]; simpl in Hm; destruct Hm as [<-|[]];
                reflexivity).
    simpl in Hr. rewrite E in Hr. injection Hr as -> ->. reflexivity.
  - unfold getAllPerks. simpl.
    destruct (P _ _ s) as [r s1] eqn:E. intros Hm Hr.
    assert (m = Made (Perk.find Perk.all (Perk.by_createdAt (-1))))
      as -> by (destruct r; simpl in Hm; destruct Hm as [<-|[]]; reflexivity).
    simpl in Hr. rewrite E in Hr. injection Hr as -> ->. reflexivity.
  - unfold updatePerk.
    destruct (Joi.validate perkUpdateSchema (body req)) as [e|v];
      [intros []|].
    simpl. destruct (P _ _ s) as [r s1] eqn:E. intros Hm Hr.
    assert (m = Made (Perk.findByIdAndUpdate (params_id req) v true))
      as -> by (destruct r as [[x|]|]; simpl in Hm; destruct Hm as [<-|[]];
                reflexivity).
    simpl in Hr. rewrite E in Hr. injection Hr as -> ->. reflexivity.
  - unfold deletePerk. simpl.
    destruct (P _ _ s) as [r s1] eqn:E. intros Hm Hr.
    assert (m = Made (Perk.findByIdAndDelete (params_id req)))
      as -> by (destruct r as [[x|]|]; simpl in Hm; destruct Hm as [<-|[]];
                reflexivity).
    simpl in Hr. rewrite E in Hr. injection Hr as -> ->. reflexivity.
Qed.

(** X5. The create handler forwards every rejection but the duplicate
    key: when its create call is rejected with an error whose code is not
    11000, it ends in [next(err)]. *)
Theorem createPerk_forwards_other_errors (req : request) (v : option obj)
    (s s' : S) (err : exn) :
  Joi.validate perkSchema (body req) = inr v ->
  P _ (Perk.create (spread v)) s = (Rejected err, s') ->
  code err <> Some 11000%Z ->
  run P (createPerk req) s = (Next err, s').
Proof.
  intros Hv HP Hc. unfold createPerk. rewrite Hv. simpl. rewrite HP.
  destruct (code_is 11000 err) eqn:E; [|reflexivity].
  apply code_is_spec in E. contradiction.
Qed.

(** X6. The statuses each handler can answer with, whatever the
    persistence layer: filter 200 or 400, get 200 or 404, list 200, create
    201, 400 or 409, update 200, 400 or 404, delete 200 or 404. *)
Theorem handler_statuses (req : request) (s s' : S) (res : response) :
  (run P (filterPerks req) s = (Sent res, s') -> In (status res) [200; 400])
  /\ (run P (getPerk req) s = (Sent res, s') -> In (status res) [200; 404])
  /\ (run P (getAllPerks req) s = (Sent res, s') -> status res = 200)
  /\ (run P (createPerk req) s = (Sent res, s')
      -> In (status res) [201; 400; 409])
  /\ (run P (updatePerk req) s = (Sent res, s')
      -> In (status res) [200; 400; 404])
  /\ (run P (deletePerk req) s = (Sent res, s') -> In (status res) [200; 404]).
Proof.
  repeat split.
  - unfold filterPerks. destruct (query_title req) as [t|];
      [|intros [= <- <-]; simpl; auto].
    destruct (negb _); [|intros [= <- <-]; simpl; auto]. simpl.
    destruct (P _ _ s) as [[x|e] s1]; simpl; intros [= <- <-]; simpl; auto.
  - unfold getPerk. simpl.
    destruct (P _ _ s) as [[[x|]|e] s1]; simpl; intros [= <- <-]; simpl; auto.
  - unfold getAllPerks. simpl.
    destruct (P _ _ s) as [[x|e] s1]; simpl; intros [= <- <-]; reflexivity.
  - unfold createPerk.
    destruct (Joi.validate perkSchema (body req)) as [e|v];
      [intros [= <- <-]; simpl; auto|].
    simpl. destruct (P _ _ s) as [[x|e] s1]; simpl;
      [intros [= <- <-]; simpl; auto|].
    destruct (code_is 11000 e); simpl; intros [= <- <-]; simpl; auto.
  - unfold updatePerk.
    destruct (Joi.validate perkUpdateSchema (body req)) as [e|v];
      [intros [= <- <-]; simpl; auto|].
    simpl. destruct (P _ _ s) as [[[x|]|e] s1]; simpl; intros [= <- <-];
      simpl; auto.
  - unfold deletePerk. simpl.
    destruct (P _ _ s) as [[[x|]|e] s1]; simpl; intros [= <- <-]; simpl; auto.
Qed.

End EveryPersistence.

(** ** The two schemas *)

Section Validation.
Context {conv : Joi.Convert}.

Lemma validate_object_inr S o o' :
  Joi.validate S (Some (VObj o)) = inr (Some o') <->
  Joi.validate_object S o = inr o'.
Proof.
  simpl. destruct (Joi.validate_object S o) as [e|o1]; simpl;
    split; congruence.
Qed.

(** Errors come in declaration order: when the keys declared before [k]
    pass on the submitted object and [k] fails, the error is that of
    [k]. *)
Lemma validate_children_first_error ks1 : forall ks2 k s o e,
  List.NoDup (map fst (ks1 ++ (k, s) :: ks2)%list) ->
  (forall k' s', In (k', s') ks1 ->
     exists r, Joi.validate_value k' s' (Obj.get k' o) = inr r) ->
  Joi.validate_value k s (Obj.get k o) = inl e ->
  Joi.validate_children (ks1 ++ (k, s) :: ks2)%list o = inl e.
Proof.
  induction ks1 as [|[k1 s1] ks1 IH]; intros ks2 k s o e Hnd Hok He; simpl.
  - rewrite He. reflexivity.
  - destruct (Hok k1 s1 (or_introl eq_refl)) as [r Hr]. rewrite Hr.
    simpl in Hnd. inversion Hnd as [|? ? Hnotin Hnd']; subst.
    assert (forall k', In k' (map fst (ks1 ++ (k, s) :: ks2)%list) -> k1 <> k')
      as Hne by (intros k' Hin ->; exact (Hnotin Hin)).
    apply IH; [exact Hnd'| |].
    + intros k' s' Hin. rewrite stored_other.
      * apply Hok. right. exact Hin.
      * apply Hne. rewrite map_app. apply in_or_app. left.
        apply (in_map fst) in Hin. exact Hin.
    + rewrite stored_other; [exact He|].
      apply Hne. rewrite map_app. apply in_or_app. right. left. reflexivity.
Qed.

(** X7. The 400 message is that of the first declared key that fails:
    when the keys declared before [k] pass on the submitted object and
    [k] fails with [e], the handler answers 400 with the message of
    [e], whatever the keys declared after [k] and the undeclared keys
    hold. *)
Theorem first_failing_key_is_reported (req : request) (o : obj)
    (S : Joi.object_schema) (h : request -> handler outcome)
    (ks1 ks2 : list (string * Joi.schema)) (k : string) (s : Joi.schema)
    (e : Joi.error) :
  In (S, h) validating_handlers ->
  body req = Some (VObj o) ->
  Joi.children S = (ks1 ++ (k, s) :: ks2)%list ->
  (forall k' s', In (k', s') ks1 ->
     exists r, Joi.validate_value k' s' (Obj.get k' o) = inr r) ->
  Joi.validate_value k s (Obj.get k o) = inl e ->
  h req = send 400 (Message (Joi.message e)).
Proof.
  intros Hh Hb Hks Hok He.
  assert (Joi.validate S (body req) = inl e) as Hv.
  { rewrite Hb. simpl. unfold Joi.validate_object. rewrite Hks.
    rewrite (validate_children_first_error ks1 ks2 k s o e);
      [reflexivity| |exact Hok|exact He].
    rewrite <- Hks. simpl in Hh.
    destruct Hh as [[= <- <-]|[[= <- <-]|[]]];
      [apply perkSchema_keys|apply perkUpdateSchema_keys]. }
  simpl in Hh. destruct Hh as [[= <- <-]|[[= <- <-]|[]]].
  - apply createPerk_invalid, Hv.
  - apply updatePerk_invalid, Hv.
Qed.

(** X8. A field of the wrong type or outside its range is rejected by
    both schemas, whatever else the body holds: a title, description,
    category or merchant that is not a string, a category string outside
    the five, or a discountPercent number outside [0, 100] makes create
    and update answer 400 without a persistence call. *)
Theorem invalid_field_is_rejected (req : request) (o : obj) :
  body req = Some (VObj o) ->
  (exists k v, In k ["title"; "description"; "category"; "merchant"]
               /\ Obj.get k o = Some v /\ forall x, v <> VStr x)
  \/ (exists c, Obj.get "category" o = Some (VStr c)
                /\ ~ In c ["food"; "tech"; "travel"; "fitness"; "other"])
  \/ (exists n, Obj.get "discountPercent" o = Some (VNum n)
                /\ ((0 <=? n)%float && (n <=? 100)%float = false)) ->
  exists e e',
    createPerk req = send 400 (Message (Joi.message e))
    /\ updatePerk req = send 400 (Message (Joi.message e')).
Proof.
  intros Hb Hbad.
  assert (forall S,
            S = perkSchema \/ S = perkUpdateSchema ->
            exists e, Joi.validate S (body req) = inl e) as Hfail.
  { intros S HS. rewrite Hb. simpl.
    assert (exists k s e, In (k, s) (Joi.children S)
              /\ Joi.validate_value k s (Obj.get k o) = inl e)
      as (k & s & e & Hin & He).
    { destruct Hbad as [(k & v & Hk & Hg & Hv)|[(c & Hg & Hc)|(n & Hg & Hn)]].
      - assert (exists s, In (k, s) (Joi.children S)
                          /\ Joi.base s = Joi.StringT) as (s & Hin & Hbase).
        { simpl in Hk.
          destruct Hk as [<-|[<-|[<-|[<-|[]]]]]; destruct HS as [-> | ->];
            eexists; (split; [in_children|reflexivity]). }
        destruct (not_a_string_rejected k s v Hbase Hv) as [e He].
        exists k, s, e. rewrite Hg. auto.
      - assert (exists s, In ("category", s) (Joi.children S)
                  /\ exists e, Joi.validate_value "category" s
                                 (Some (VStr c)) = inl e)
          as (s & Hin & e & He).
        { assert (forall c', VStr c = VStr c' -> Store.category_ok c' = false)
            as Hno.
          { intros c' [= <-].
            destruct (Store.category_ok c) eqn:E; [|reflexivity].
            exfalso. apply Hc. apply category_ok_In in E. exact E. }
          destruct HS as [-> | ->]; eexists;
            (split; [in_children|]).
          - apply category_rejected; [left; reflexivity|exact Hno].
          - apply category_rejected; [right; reflexivity|exact Hno]. }
        exists "category", s, e. rewrite Hg. auto.
      - assert (exists s, In ("discountPercent", s) (Joi.children S)
                  /\ exists e, Joi.validate_value "discountPercent" s
                                 (Some (VNum n)) = inl e)
          as (s & Hin & e & He).
        { destruct HS as [-> | ->]; eexists;
            (split; [in_children|]).
          - apply discount_rejected; [left; reflexivity|exact Hn].
          - apply discount_rejected; [right; reflexivity|exact Hn]. }
        exists "discountPercent", s, e. rewrite Hg. auto. }
    assert (List.NoDup (map fst (Joi.children S))) as Hnd
      by (destruct HS as [-> | ->];
          [apply perkSchema_keys|apply perkUpdateSchema_keys]).
    destruct (validate_children_error _ o k s e Hnd Hin He) as [e' He'].
    unfold Joi.validate_object. rewrite He'. eauto. }
  destruct (Hfail perkSchema (or_introl eq_refl)) as [e He].
  destruct (Hfail perkUpdateSchema (or_intror eq_refl)) as [e' He'].
  exists e, e'. split;
    [apply createPerk_invalid, He|apply updatePerk_invalid, He'].
Qed.

(** X9. Validation is idempotent: the object either schema lets through
    passes the same schema again and comes out unchanged. *)
Theorem validation_is_idempotent (S : Joi.object_schema) (o o' : obj) :
  S = perkSchema \/ S = perkUpdateSchema ->
  Joi.validate S (Some (VObj o)) = inr (Some o') ->
  Joi.validate S (Some (VObj o')) = inr (Some o').
Proof.
  intros HS H. apply validate_object_inr. apply validate_object_inr in H.
  destruct HS as [-> | ->].
  - exact (validate_object_idem _ o o' perkSchema_keys perkSchema_stable H).
  - exact (validate_object_idem _ o o' perkUpdateSchema_keys
             perkUpdateSchema_stable H).
Qed.

End Validation.

Section UpdateSchema.
Context {conv : Joi.Convert}.

Lemma perkUpdateSchema_no_default k s :
  In (k, s) (Joi.children perkUpdateSchema) -> Joi.flag_default s = None.
Proof.
  simpl. intros Hin.
  repeat (destruct Hin as [[= <- <-]|Hin]; [reflexivity|]). destruct Hin.
Qed.

(** X10. The update handler hands over the keys that were submitted, no
    more and no less and in the same order (the update schema has no
    defaults), and the string values as they were submitted. *)
Theorem updatePerk_sets_submitted_keys (req : request) (o : obj)
    (v : option obj) :
  body req = Some (VObj o) ->
  Joi.validate perkUpdateSchema (body req) = inr v ->
  exists o',
    v = Some o'
    /\ (forall (S : Type) (P : persistence S) (s : S),
          calls P (updatePerk req) s
          = [Made (Perk.findByIdAndUpdate (params_id req) (Some o') true)])
    /\ Obj.keys o' = Obj.keys o
    /\ (forall k x, Obj.get k o = Some (VStr x) -> k <> "discountPercent" ->
          Obj.get k o' = Some (VStr x)).
Proof.
  intros Hb Hv. pose proof Hv as Hv'. rewrite Hb in Hv'.
  destruct (validate_inr _ _ _ Hv') as (o0 & o' & -> & Ho & Hsrc).
  destruct Hsrc as [[= <-]|(x & [=] & _)].
  exists o'. split; [reflexivity|].
  split; [intros S P s; apply (updatePerk_calls P req _ s Hv)|].
  pose proof (validate_object_children _ _ _ Ho) as Hc.
  split.
  - apply (validate_children_same_keys _ _ _ perkUpdateSchema_no_default Hc).
  - intros k x Hg Hk.
    destruct (in_dec String.string_dec k
                (map fst (Joi.children perkUpdateSchema))) as [Hd|Hd].
    + simpl in Hd.
      destruct Hd as [<-|[<-|[<-|[<-|[<-|[]]]]]]; try congruence.
      all: match goal with
           | |- Obj.get ?k _ = _ =>
               eassert (Joi.validate_value k _ (Obj.get k o)
                        = inr (Obj.get k o')) as R
                 by (eapply validate_children_result;
                     [apply perkUpdateSchema_keys | in_children | exact Hc])
           end;
        rewrite Hg in R;
        apply string_typed in R; [|reflexivity]; destruct R as [_ R];
        exact R.
    + rewrite (validate_children_frame _ _ _ k Hc Hd). exact Hg.
Qed.

(** X11. What the update handler hands over is valid field by field: a
    title is a string of length at least 2, a description and a merchant
    are strings, a category is one of the five, a discountPercent is a
    number in [0, 100], and there is at least one key. *)
Theorem updatePerk_valid_fields (req : request) (b : value)
    (v : option obj) :
  body req = Some b ->
  Joi.validate perkUpdateSchema (body req) = inr v ->
  (forall (S : Type) (P : persistence S) (s : S),
     calls P (updatePerk req) s
     = [Made (Perk.findByIdAndUpdate (params_id req) v true)])
  /\ (forall x, Obj.get "title" (spread v) = Some x ->
        exists t, x = VStr t /\ 2 <= String.length t)
  /\ (forall x, Obj.get "description" (spread v) = Some x ->
        exists d, x = VStr d)
  /\ (forall x, Obj.get "category" (spread v) = Some x ->
        exists c, x = VStr c
                  /\ In c ["food"; "tech"; "travel"; "fitness"; "other"])
  /\ (forall x, Obj.get "discountPercent" (spread v) = Some x ->
        exists n, x = VNum n
                  /\ (0 <=? n)%float = true /\ (n <=? 100)%float = true)
  /\ (forall x, Obj.get "merchant" (spread v) = Some x ->
        exists m, x = VStr m)
  /\ 1 <= length (Obj.keys (spread v)).
Proof.
  intros Hb Hv. pose proof Hv as Hv'. rewrite Hb in Hv'.
  destruct (validate_inr _ _ _ Hv') as (o & o' & -> & Ho & _).
  split; [intros S P s; apply (updatePerk_calls P req _ s Hv)|].
  destruct (update_fields o o' Ho)
    as (t & d & c & n & m & (_ & Ht & Htok) & (_ & Hd) & (_ & Hc & Hcok)
        & (Hn & Hnok & _) & (_ & Hm)).
  simpl. rewrite Ht, Hd, Hc, Hn, Hm.
  repeat split.
  - destruct t as [t|]; intros x [= <-]. exists t. split; [reflexivity|].
    simpl in Htok. unfold Store.title_ok in Htok.
    apply Nat.leb_le in Htok. exact Htok.
  - destruct d as [d|]; intros x [= <-]. eauto.
  - destruct c as [c|]; intros x [= <-]. exists c. split; [reflexivity|].
    apply category_ok_In in Hcok. exact Hcok.
  - destruct n as [n|]; intros x [= <-]. exists n. split; [reflexivity|].
    simpl in Hnok. unfold Store.discount_ok in Hnok.
    apply andb_true_iff in Hnok. exact Hnok.
  - destruct m as [m|]; intros x [= <-]. eauto.
  - unfold Joi.validate_object in Ho.
    destruct (Joi.validate_children _ o) as [e|o1]; [discriminate|].
    destruct (Joi.first_unknown _ o); [discriminate|].
    simpl in Ho.
    destruct (Z.leb_spec 1 (Z.of_nat (length (Obj.keys o1))));
      [|discriminate].
    injection Ho as <-. lia.
Qed.

(** X12. A body the create schema accepts is accepted by the update
    schema, which hands over its keys without adding the creation
    defaults. *)
Theorem create_valid_is_update_valid (o o' : obj) :
  Joi.validate perkSchema (Some (VObj o)) = inr (Some o') ->
  exists o'',
    Joi.validate perkUpdateSchema (Some (VObj o)) = inr (Some o'')
    /\ Obj.keys o'' = Obj.keys o.
Proof.
  intros H. apply validate_object_inr in H.
  pose proof (validate_object_children _ _ _ H) as Hc.
  assert (exists o'',
            Joi.validate_children (Joi.children perkUpdateSchema) o
            = inr o'') as [o'' Hu].
  { apply validate_children_complete; [apply perkUpdateSchema_keys|].
    intros k s Hin.
    assert (exists s', In (k, s') (Joi.children perkSchema)
              /\ forall v, Joi.validate_value k s (Some v)
                           = Joi.validate_value k s' (Some v))
      as (s' & Hin' & Hsame).
    { simpl in Hin.
      repeat (destruct Hin as [[= <- <-]|Hin];
              [eexists; split; [in_children|intros v; reflexivity]|]).
      destruct Hin. }
    pose proof (validate_children_result _ _ _ _ _ perkSchema_keys
                  Hin' Hc) as R.
    destruct (Obj.get k o) as [v|].
    - rewrite Hsame, R. eauto.
    - exists None. simpl.
      rewrite (perkUpdateSchema_no_default k s Hin).
      simpl in Hin.
      repeat (destruct Hin as [[= <- <-]|Hin]; [reflexivity|]).
      destruct Hin. }
  pose proof (validate_children_same_keys _ _ _
                perkUpdateSchema_no_default Hu) as Hk.
  exists o''. split; [|exact Hk].
  apply validate_object_inr.
  destruct (create_fields o o' H) as (t & _ & _ & _ & _ & (Ht & _) & _).
  assert (1 <= length (Obj.keys o)) as Hlen.
  { assert (In "title" (Obj.keys o)) as Hin
      by (apply ObjKeys.keys_get; eauto).
    destruct (Obj.keys o); [destruct Hin|simpl; lia]. }
  unfold Joi.validate_object in *. rewrite Hu. rewrite Hc in H.
  change (Joi.first_unknown (Joi.children perkUpdateSchema) o)
    with (Joi.first_unknown (Joi.children perkSchema) o).
  destruct (Joi.first_unknown (Joi.children perkSchema) o); [discriminate|].
  simpl. rewrite Hk.
  destruct (Z.leb_spec 1 (Z.of_nat (length (Obj.keys o))));
    [reflexivity|lia].
Qed.

End UpdateSchema.

(** ** Reads and writes on the collection *)

Section OnTheCollection.
Context {conv : Joi.Convert} {index : Store.UniqueIndex}.

(** Get by id answers with the stored perk, or 404. *)
Lemma getPerk_answers (req : request) (s : Store.collection) :
  run Store.exec (getPerk req) s
  = (match Store.docs s !! params_id req with
     | Some p => Sent {| status := 200; json := OnePerk p |}
     | None => Sent {| status := 404; json := Message "Perk not found" |}
     end, s).
Proof.
  unfold getPerk. simpl. destruct (Store.docs s !! params_id req); reflexivity.
Qed.

(** X13. The list handler answers 200 with every stored perk, each once,
    newest first, and leaves the collection as it was. *)
Theorem getAllPerks_lists_all (req : request) (s : Store.collection) :
  exists perks,
    run Store.exec (getAllPerks req) s
    = (Sent {| status := 200; json := Perks perks |}, s)
    /\ Sorted Store.newer_first perks
    /\ perks ≡ₚ map snd (map_to_list (Store.docs s))
    /\ forall p, In p perks <-> exists i, Store.docs s !! i = Some p.
Proof.
  eexists. split; [reflexivity|]. unfold Store.find. simpl.
  assert (forall l : list perk, List.filter (fun _ => true) l = l) as Hf.
  { induction l as [|x l IH]; simpl; [reflexivity|]. rewrite IH. reflexivity. }
  rewrite Hf.
  split; [apply Sorted_merge_sort; apply _|].
  split; [apply merge_sort_Permutation|].
  intros p. rewrite <- list_elem_of_In, merge_sort_Permutation.
  rewrite list_elem_of_fmap. split.
  - intros ([i q] & -> & Hin). exists i.
    apply elem_of_map_to_list in Hin. exact Hin.
  - intros [i Hi]. exists (i, p). split; [reflexivity|].
    apply elem_of_map_to_list. exact Hi.
Qed.

Lemma create_changes (fields : obj) (s s' : Store.collection) r :
  Store.create fields s = (r, s') ->
  (exists p, r = Fulfilled p /\ _id p = Store.next_id s
             /\ Store.docs s' = <[Store.next_id s := p]> (Store.docs s))
  \/ (s' = s /\ exists err, r = Rejected err).
Proof.
  unfold Store.create.
  destruct (Store.read fields) as [f|]; [|intros [= <- <-]; eauto].
  destruct (negb _); [intros [= <- <-]; eauto|].
  destruct (Store.new_perk f _ _) as [p|] eqn:E; [|intros [= <- <-]; eauto].
  destruct (Store.collides None p s); intros [= <- <-]; [eauto|].
  left. exists p. repeat split.
  unfold Store.new_perk in E. destruct (Store.s_title f); [|discriminate].
  injection E as <-. reflexivity.
Qed.

Lemma update_changes id set new (s s' : Store.collection) r :
  Store.findByIdAndUpdate id set new s = (r, s') ->
  (exists old p, r = Fulfilled (Some (if new then p else old))
                 /\ Store.docs s !! id = Some old
                 /\ Store.docs s' = <[id := p]> (Store.docs s))
  \/ (s' = s /\ (r = Fulfilled None \/ exists err, r = Rejected err)).
Proof.
  unfold Store.findByIdAndUpdate.
  destruct (Store.docs s !! id) as [old|]; [|intros [= <- <-]; eauto].
  destruct (Store.read (spread set)) as [f|]; [|intros [= <- <-]; eauto].
  destruct (negb _); [intros [= <- <-]; eauto|]. simpl.
  destruct (Store.collides _ _ s); intros [= <- <-]; [eauto|].
  left. eauto.
Qed.

Lemma delete_changes id (s s' : Store.collection) r :
  Store.findByIdAndDelete id s = (r, s') ->
  (exists old, r = Fulfilled (Some old) /\ Store.docs s !! id = Some old
               /\ Store.docs s' = delete id (Store.docs s))
  \/ (s' = s /\ r = Fulfilled None).
Proof.
  unfold Store.findByIdAndDelete.
  destruct (Store.docs s !! id) as [old|]; intros [= <- <-]; eauto.
Qed.

(** X14. A request that is not answered 200 or 201 (a 400, 404 or 409,
    or an error handed to [next]) leaves the collection as it was. *)
Theorem failures_change_nothing (req : request) (s : Store.collection)
    (h : request -> handler outcome) :
  In h handlers ->
  (forall res, fst (run Store.exec (h req) s) = Sent res ->
     status res <> 200 /\ status res <> 201) ->
  snd (run Store.exec (h req) s) = s.
Proof.
  intros Hh.
  destruct (run Store.exec (h req) s) as [o s'] eqn:Hrun. simpl.
  intros Hst. unfold handlers, plain_handlers in Hh. simpl in Hh.
  destruct Hh as [<-|[<-|[<-|[<-|[<-|[<-|[]]]]]]].
  - unfold createPerk in Hrun.
    destruct (Joi.validate perkSchema (body req)) as [e|v];
      [injection Hrun as <- <-; reflexivity|].
    simpl in Hrun. destruct (Store.create (spread v) s) as [r s1] eqn:E.
    destruct (create_changes _ _ _ _ E) as [(p & -> & _)|[-> (err & ->)]].
    + simpl in Hrun. injection Hrun as <- <-.
      destruct (Hst _ eq_refl) as [_ Hne]. simpl in Hne. congruence.
    + simpl in Hrun. destruct (code_is 11000 err);
        injection Hrun as <- <-; reflexivity.
  - unfold filterPerks in Hrun.
    destruct (query_title req) as [t|];
      [|injection Hrun as <- <-; reflexivity].
    destruct (negb _); injection Hrun as <- <-; reflexivity.
  - unfold getPerk in Hrun. simpl in Hrun.
    destruct (Store.docs s !! params_id req);
      injection Hrun as <- <-; reflexivity.
  - injection Hrun as <- <-. reflexivity.
  - unfold updatePerk in Hrun.
    destruct (Joi.validate perkUpdateSchema (body req)) as [e|v];
      [injection Hrun as <- <-; reflexivity|].
    simpl in Hrun.
    destruct (Store.findByIdAndUpdate (params_id req) v true s)
      as [r s1] eqn:E.
    destruct (update_changes _ _ _ _ _ _ E)
      as [(old & p & -> & _)|[-> [-> | (err & ->)]]].
    + simpl in Hrun. injection Hrun as <- <-.
      destruct (Hst _ eq_refl) as [Hne _]. simpl in Hne. congruence.
    + injection Hrun as <- <-. reflexivity.
    + injection Hrun as <- <-. reflexivity.
  - unfold deletePerk in Hrun. simpl in Hrun.
    destruct (Store.findByIdAndDelete (params_id req) s) as [r s1] eqn:E.
    destruct (delete_changes _ _ _ _ E) as [(old & -> & _)|[-> ->]].
    + simpl in Hrun. injection Hrun as <- <-.
      destruct (Hst _ eq_refl) as [Hne _]. simpl in Hne. congruence.
    + injection Hrun as <- <-. reflexivity.
Qed.

(** X15. The three read handlers (filter, get, list) never change the
    collection. *)
Theorem reads_change_nothing (req : request) (s : Store.collection)
    (h : request -> handler outcome) :
  In h [filterPerks; getPerk; getAllPerks] ->
  snd (run Store.exec (h req) s) = s.
Proof.
  intros Hh. simpl in Hh. destruct Hh as [<-|[<-|[<-|[]]]].
  - unfold filterPerks. destruct (query_title req) as [t|]; [|reflexivity].
    destruct (negb _); reflexivity.
  - rewrite getPerk_answers. reflexivity.
  - reflexivity.
Qed.

(** X16. What create, update and delete answer with is what get by id
    then finds: the created perk under its identifier, the updated perk
    under the request's identifier, and 404 after a delete. *)
Theorem writes_are_read_back (req : request) (s s' : Store.collection)
    (p : perk) :
  (run Store.exec (createPerk req) s
   = (Sent {| status := 201; json := OnePerk p |}, s') ->
   forall r, params_id r = _id p ->
     run Store.exec (getPerk r) s'
     = (Sent {| status := 200; json := OnePerk p |}, s'))
  /\ (run Store.exec (updatePerk req) s
      = (Sent {| status := 200; json := OnePerk p |}, s') ->
      run Store.exec (getPerk req) s'
      = (Sent {| status := 200; json := OnePerk p |}, s'))
  /\ (run Store.exec (deletePerk req) s
      = (Sent {| status := 200; json := Ok true |}, s') ->
      run Store.exec (getPerk req) s'
      = (Sent {| status := 404; json := Message "Perk not found" |}, s')).
Proof.
  repeat split.
  - intros Hrun r Hr. rewrite getPerk_answers, Hr. revert Hrun.
    unfold createPerk.
    destruct (Joi.validate perkSchema (body req)) as [e|v]; [discriminate|].
    simpl. destruct (Store.create (spread v) s) as [r1 s1] eqn:E.
    destruct (create_changes _ _ _ _ E)
      as [(q & -> & Hid & Hd)|[-> (err & ->)]]; simpl.
    + intros [= -> ->]. rewrite Hd, Hid, lookup_insert_eq. reflexivity.
    + destruct (code_is 11000 err); discriminate.
  - rewrite getPerk_answers. unfold updatePerk.
    destruct (Joi.validate perkUpdateSchema (body req)) as [e|v];
      [discriminate|].
    simpl. destruct (Store.findByIdAndUpdate (params_id req) v true s)
      as [r s1] eqn:E.
    destruct (update_changes _ _ _ _ _ _ E)
      as [(old & q & -> & _ & Hd)|[-> [-> | (err & ->)]]]; simpl;
      try discriminate.
    intros [= -> ->]. rewrite Hd, lookup_insert_eq. reflexivity.
  - rewrite getPerk_answers. unfold deletePerk. simpl.
    destruct (Store.findByIdAndDelete (params_id req) s) as [r s1] eqn:E.
    destruct (delete_changes _ _ _ _ E) as [(old & -> & _ & Hd)|[-> ->]];
      simpl; [|discriminate].
    intros [= ->]. rewrite Hd, lookup_delete_eq. reflexivity.
Qed.

End OnTheCollection.

Section OnTheCollection2.
Context {conv : Joi.Convert} {index : Store.UniqueIndex}.

Lemma merged_twice f old :
  Store.merged f (Store.merged f old) = Store.merged f old.
Proof.
  unfold Store.merged. destruct f as [t d c n m]; simpl.
  destruct t, d, c, n, m; reflexivity.
Qed.

(** The collision test against the other perks does not look at the perk
    under the identifier itself. *)
Lemma collides_insert_self id p q (s : Store.collection) :
  Store.collides (Some id) q
    {| Store.docs := <[id := p]> (Store.docs s);
       Store.next_id := Store.next_id s; Store.clock := Store.clock s |}
  = Store.collides (Some id) q s.
Proof.
  unfold Store.collides. cbn [Store.docs].
  apply eq_true_iff_eq. rewrite !existsb_exists.
  split; intros ([i x] & Hin & HP); exists (i, x); (split; [|exact HP]);
    simpl in HP; apply andb_true_iff in HP; destruct HP as [Hne _];
    apply negb_true_iff, bool_decide_eq_false in Hne;
    assert (id <> i) as Hi by congruence;
    apply list_elem_of_In, elem_of_map_to_list in Hin;
    apply list_elem_of_In, elem_of_map_to_list.
  - rewrite lookup_insert_ne in Hin by exact Hi. exact Hin.
  - rewrite lookup_insert_ne by exact Hi. exact Hin.
Qed.

(** X17. An update that was answered 200 can be repeated: the same
    request is answered 200 with the same perk and leaves the collection
    as the first one left it. *)
Theorem updatePerk_is_idempotent (req : request) (s s' : Store.collection)
    (p : perk) :
  run Store.exec (updatePerk req) s
  = (Sent {| status := 200; json := OnePerk p |}, s') ->
  run Store.exec (updatePerk req) s'
  = (Sent {| status := 200; json := OnePerk p |}, s').
Proof.
  unfold updatePerk.
  destruct (Joi.validate perkUpdateSchema (body req)) as [e|v];
    [discriminate|].
  simpl. unfold Store.findByIdAndUpdate.
  destruct (Store.docs s !! params_id req) as [old|] eqn:Hold;
    [|discriminate].
  destruct (Store.read (spread v)) as [f|] eqn:Hf; [|discriminate].
  destruct (negb (Store.submitted_ok f)) eqn:Hok; [discriminate|]. simpl.
  destruct (Store.collides (Some (params_id req)) (Store.merged f old) s)
    eqn:Hcol; [discriminate|].
  simpl. intros [= <- <-]. cbn [Store.docs Store.next_id Store.clock].
  rewrite lookup_insert_eq.
  rewrite merged_twice, collides_insert_self, Hcol. simpl.
  rewrite insert_insert_eq. reflexivity.
Qed.

(** X18. A write touches one perk: after a create answered 201 every
    perk under another identifier is as it was, and after a delete
    answered 200 the identifier holds nothing and every other perk is as
    it was. *)
Theorem writes_touch_one_perk (req : request) (s s' : Store.collection)
    (p : perk) (id : nat) :
  (run Store.exec (createPerk req) s
   = (Sent {| status := 201; json := OnePerk p |}, s') ->
   id <> _id p -> Store.docs s' !! id = Store.docs s !! id)
  /\ (run Store.exec (deletePerk req) s
      = (Sent {| status := 200; json := Ok true |}, s') ->
      Store.docs s' !! params_id req = None
      /\ (id <> params_id req -> Store.docs s' !! id = Store.docs s !! id)).
Proof.
  split.
  - unfold createPerk.
    destruct (Joi.validate perkSchema (body req)) as [e|v]; [discriminate|].
    simpl. destruct (Store.create (spread v) s) as [r1 s1] eqn:E.
    destruct (create_changes _ _ _ _ E)
      as [(q & -> & Hid & Hd)|[-> (err & ->)]]; simpl.
    + intros [= -> ->] Hne. rewrite Hd, lookup_insert_ne; congruence.
    + destruct (code_is 11000 err); discriminate.
  - unfold deletePerk. simpl.
    destruct (Store.findByIdAndDelete (params_id req) s) as [r s1] eqn:E.
    destruct (delete_changes _ _ _ _ E) as [(old & -> & _ & Hd)|[-> ->]];
      simpl; [|discriminate].
    intros [= ->]. rewrite Hd. split; [apply lookup_delete_eq|].
    intros Hne. apply lookup_delete_ne. congruence.
Qed.

End OnTheCollection2.

(** ** The further properties on concrete requests *)

Lemma handlers_submit_declared_keys_witness :
  In "category"
     ["title"; "description"; "category"; "discountPercent"; "merchant"].
Proof.
  apply (@handlers_submit_declared_keys integers_only Store.collection
           (Store.exec (index := Store.merchant_index))
           (Examples.post (VObj Examples.free_coffee)) Store.empty
           (createPerk (conv := integers_only))
           (Made (Perk.create Examples.free_coffee_validated)) "category").
  - left. reflexivity.
  - vm_compute. left. reflexivity.
  - simpl. right. right. left. reflexivity.
Defined.

Lemma handlers_call_at_most_once_witness :
  length (calls (Store.exec (index := Store.merchant_index))
            (deletePerk (Examples.by_id 0)) Examples.one_perk) <= 1.
Proof.
  apply (@handlers_call_at_most_once integers_only Store.collection
           (Store.exec (index := Store.merchant_index))
           (Examples.by_id 0) Examples.one_perk deletePerk).
  do 5 right. left. reflexivity.
Defined.

Lemma next_forwards_a_rejection_witness :
  exists m,
    calls unreachable (getPerk (Examples.by_id 0)) tt = [m]
    /\ rejects unreachable tt m connection_error tt.
Proof.
  apply (@next_forwards_a_rejection integers_only unit unreachable
           (Examples.by_id 0) tt tt getPerk connection_error).
  - do 2 right. left. reflexivity.
  - reflexivity.
Defined.

Lemma plain_handlers_forward_rejections_witness :
  run (Store.exec (index := Store.merchant_index))
      (updatePerk (conv := integers_only)
         (Examples.patch 1 (VObj [("merchant", VStr "Acme")])))
      Examples.two_perks
  = (Next Store.duplicate, Examples.two_perks).
Proof.
  apply (@plain_handlers_forward_rejections integers_only Store.collection
           (Store.exec (index := Store.merchant_index))
           (Examples.patch 1 (VObj [("merchant", VStr "Acme")]))
           Examples.two_perks Examples.two_perks
           (updatePerk (conv := integers_only))
           (Made (Perk.findByIdAndUpdate 1
                    (Some [("merchant", VStr "Acme")]) true))
           Store.duplicate).
  - do 3 right. left. reflexivity.
  - vm_compute. left. reflexivity.
  - vm_compute. reflexivity.
Defined.

Lemma createPerk_forwards_other_errors_witness :
  run unreachable
      (createPerk (conv := integers_only)
         (Examples.post (VObj Examples.free_coffee))) tt
  = (Next connection_error, tt).
Proof.
  apply (@createPerk_forwards_other_errors integers_only unit unreachable
           (Examples.post (VObj Examples.free_coffee))
           (Some Examples.free_coffee_validated) tt tt connection_error).
  - reflexivity.
  - reflexivity.
  - simpl. discriminate.
Defined.

Lemma first_failing_key_is_reported_witness :
  createPerk (conv := integers_only)
    (Examples.post (VObj MoreExamples.two_errors))
  = send 400
      (Message
         (Joi.message
            (Joi.any_only "category"
               ["food"; "tech"; "travel"; "fitness"; "other"]))).
Proof.
  apply (@first_failing_key_is_reported integers_only
           (Examples.post (VObj MoreExamples.two_errors))
           MoreExamples.two_errors perkSchema
           (createPerk (conv := integers_only))
           [("title", Joi.string |> Joi.min 2 |> Joi.required);
            ("description", Joi.string |> Joi.allow [EmptyString])]
           [("discountPercent",
             Joi.number |> Joi.min 0 |> Joi.max 100
                        |> Joi.default (VNum 0%float));
            ("merchant", Joi.string |> Joi.allow [EmptyString])]
           "category"
           (Joi.string
              |> Joi.valid ["food"; "tech"; "travel"; "fitness"; "other"]
              |> Joi.default (VStr "other"))).
  - left. reflexivity.
  - reflexivity.
  - reflexivity.
  - intros k' s' [[= <- <-]|[[= <- <-]|[]]]; eexists; reflexivity.
  - reflexivity.
Defined.

Lemma invalid_field_is_rejected_witness :
  exists e e',
    createPerk (conv := integers_only)
      (Examples.post (VObj MoreExamples.two_errors))
    = send 400 (Message (Joi.message e))
    /\ updatePerk (conv := integers_only)
         (Examples.post (VObj MoreExamples.two_errors))
       = send 400 (Message (Joi.message e')).
Proof.
  apply (@invalid_field_is_rejected integers_only
           (Examples.post (VObj MoreExamples.two_errors))
           MoreExamples.two_errors).
  - reflexivity.
  - right. right. exists 500%float. split; reflexivity.
Defined.

Lemma validation_is_idempotent_witness :
  Joi.validate (conv := integers_only) perkSchema
    (Some (VObj Examples.free_coffee_validated))
  = inr (Some Examples.free_coffee_validated).
Proof.
  apply (@validation_is_idempotent integers_only perkSchema
           Examples.free_coffee Examples.free_coffee_validated).
  - left. reflexivity.
  - reflexivity.
Defined.

Lemma updatePerk_sets_submitted_keys_witness :
  exists o',
    Some MoreExamples.retitle = Some o'
    /\ (forall (S : Type) (P : persistence S) (s : S),
          calls P (updatePerk (conv := integers_only)
                     (Examples.patch 1 (VObj MoreExamples.retitle))) s
          = [Made (Perk.findByIdAndUpdate
                     (params_id
                        (Examples.patch 1 (VObj MoreExamples.retitle)))
                     (Some o') true)])
    /\ Obj.keys o' = Obj.keys MoreExamples.retitle
    /\ (forall k x, Obj.get k MoreExamples.retitle = Some (VStr x) ->
          k <> "discountPercent" -> Obj.get k o' = Some (VStr x)).
Proof.
  apply (@updatePerk_sets_submitted_keys integers_only
           (Examples.patch 1 (VObj MoreExamples.retitle))
           MoreExamples.retitle (Some MoreExamples.retitle)).
  - reflexivity.
  - reflexivity.
Defined.

Lemma updatePerk_valid_fields_witness :
  (forall (S : Type) (P : persistence S) (s : S),
     calls P (updatePerk (conv := integers_only)
                (Examples.patch 1 (VObj MoreExamples.half_price))) s
     = [Made (Perk.findByIdAndUpdate
                (params_id (Examples.patch 1 (VObj MoreExamples.half_price)))
                (Some MoreExamples.half_price) true)])
  /\ (forall x, Obj.get "title" MoreExamples.half_price = Some x ->
        exists t, x = VStr t /\ 2 <= String.length t)
  /\ (forall x, Obj.get "description" MoreExamples.half_price = Some x ->
        exists d, x = VStr d)
  /\ (forall x, Obj.get "category" MoreExamples.half_price = Some x ->
        exists c, x = VStr c
                  /\ In c ["food"; "tech"; "travel"; "fitness"; "other"])
  /\ (forall x, Obj.get "discountPercent" MoreExamples.half_price = Some x ->
        exists n, x = VNum n
                  /\ (0 <=? n)%float = true /\ (n <=? 100)%float = true)
  /\ (forall x, Obj.get "merchant" MoreExamples.half_price = Some x ->
        exists m, x = VStr m)
  /\ 1 <= length (Obj.keys MoreExamples.half_price).
Proof.
  apply (@updatePerk_valid_fields integers_only
           (Examples.patch 1 (VObj MoreExamples.half_price))
           (VObj MoreExamples.half_price)
           (Some MoreExamples.half_price)).
  - reflexivity.
  - reflexivity.
Defined.

Lemma create_valid_is_update_valid_witness :
  exists o'',
    Joi.validate (conv := integers_only) perkUpdateSchema
      (Some (VObj MoreExamples.full)) = inr (Some o'')
    /\ Obj.keys o'' = Obj.keys MoreExamples.full.
Proof.
  apply (@create_valid_is_update_valid integers_only
           MoreExamples.full MoreExamples.full).
  reflexivity.
Defined.

Lemma failures_change_nothing_witness :
  snd (run (Store.exec (index := Store.merchant_index))
         (createPerk (conv := integers_only)
            (Examples.post (VObj Examples.free_coffee)))
         Examples.one_perk)
  = Examples.one_perk.
Proof.
  apply (@failures_change_nothing integers_only Store.merchant_index
           (Examples.post (VObj Examples.free_coffee))
           Examples.one_perk (createPerk (conv := integers_only))).
  - left. reflexivity.
  - vm_compute. intros res [= <-]. split; discriminate.
Defined.

Lemma reads_change_nothing_witness :
  snd (run (Store.exec (index := Store.merchant_index))
         (getAllPerks (Examples.search None)) Examples.two_perks)
  = Examples.two_perks.
Proof.
  apply (@reads_change_nothing Store.merchant_index
           (Examples.search None) Examples.two_perks getAllPerks).
  do 2 right. left. reflexivity.
Defined.

Lemma updatePerk_is_idempotent_witness :
  run (Store.exec (index := Store.merchant_index))
      (updatePerk (conv := integers_only)
         (Examples.patch 1 (VObj MoreExamples.half_price)))
      (snd (run (Store.exec (index := Store.merchant_index))
              (updatePerk (conv := integers_only)
                 (Examples.patch 1 (VObj MoreExamples.half_price)))
              Examples.two_perks))
  = (Sent {| status := 200;
             json := OnePerk
                       {| _id := 1; title := "Free Coffee";
                          description := Some "One per visit";
                          category := "food"; discountPercent := 50%float;
                          merchant := Some "Bolt"; createdAt := 1 |} |},
     snd (run (Store.exec (index := Store.merchant_index))
            (updatePerk (conv := integers_only)
               (Examples.patch 1 (VObj MoreExamples.half_price)))
            Examples.two_perks)).
Proof.
  apply (@updatePerk_is_idempotent integers_only Store.merchant_index
           (Examples.patch 1 (VObj MoreExamples.half_price))
           Examples.two_perks).
  vm_compute. reflexivity.
Defined.
